(** * hinge: dialogs.py and widgets.py

    A shallow embedding of the export dialog's measurement model
    ([ExportImageDialog]), of [GenericDialog.setListControl] and of the
    composite widgets of [widgets.py], together with the properties the
    specification states about them.

    Numbers.  Python floats are idealised as exact rationals ([Qc], the
    canonical rationals, so that equality is Leibniz equality); Python ints
    are the integer-valued rationals.

    Toolkit.  The classes of the repository are thin layers over toolkit
    widgets (spin boxes, combo boxes, list widgets) that are not part of the
    repository.  What a spin box keeps of the number it is given (rounding
    to its decimals, clamping to its range, conversion to an integer) is a
    parameter of the development, the class [Qt.Toolkit].  [Qt.rounding] is
    the documented behaviour of the toolkit's spin boxes: a number is
    rounded to the box's decimals and clamped to its range, a pixel box
    holds an integer; [Qt.nearest] differs from it in how a float becomes
    an integer.  [Qt.exact] keeps the number as it is: it shows what the
    arithmetic of the dialog gives when no field rounds. *)

From Stdlib Require Import QArith Qcanon Qround Field Lia Lqa.
From stdpp Require Import base decidable option numbers strings list gmap.

Open Scope Qc_scope.

(** ** Python values and control flow *)

Module Py.

  (** The exceptions the embedded code can raise. *)
Inductive exn : Set := KeyError | ZeroDivisionError | ValueError.

  (** The outcome of a call: a value, an exception that propagates, or
      [Diverge] when the bound on nested signal deliveries is exhausted. *)
Inductive res (A : Type) : Type :=
  | Ok (a : A)
  | Raise (e : exn)
  | Diverge.
Arguments Ok {A} a.
Arguments Raise {A} e.
Arguments Diverge {A}.

#[global] Instance res_ret : MRet res := fun A a => Ok a.
#[global] Instance res_bind : MBind res := fun A B f m =>
    match m with
    | Ok a => f a
    | Raise e => Raise e
    | Diverge => Diverge
    end.

  (** [d[k]] on a dict with string keys. *)
Definition getitem {V : Type} (d : gmap string V) (k : string) : res V :=
    match d !! k with
    | Some v => Ok v
    | None => Raise KeyError
    end.

  (** [x / y] on floats. *)
Definition truediv (x y : Qc) : res Qc :=
    if decide (y = 0) then Raise ZeroDivisionError else Ok (x / y).

  (** [l.index(e)]: the first position of [e], [ValueError] when absent. *)
Fixpoint index (l : list string) (e : string) : res nat :=
    match l with
    | [] => Raise ValueError
    | x :: l' => if decide (x = e) then Ok 0%nat else i ← index l' e; Ok (S i)
    end.

  (** A list comprehension [[f e for e in l]] whose body can raise. *)
Fixpoint comprehension {A B : Type} (f : A -> res B) (l : list A) : res (list B) :=
    match l with
    | [] => Ok []
    | a :: l' => b ← f a; bs ← comprehension f l'; Ok (b :: bs)
    end.

End Py.
Import Py.

(** ** The toolkit's widgets *)

Module Qt.

  (** What a spin box holds after [setValue(v)]:
      [int_store minimum maximum v] for a [QSpinBox] and
      [double_store decimals minimum maximum v] for a [QDoubleSpinBox]. *)
Class Toolkit : Type := {
    int_store : Qc -> Qc -> Qc -> Qc;
    double_store : nat -> Qc -> Qc -> Qc -> Qc
  }.

Definition clamp (lo hi v : Qc) : Qc :=
    if decide (v < lo) then lo else if decide (hi < v) then hi else v.

  (** Python's [int(v)]: truncation towards zero. *)
Definition trunc (v : Qc) : Qc :=
    Q2Qc (inject_Z (if decide (v < 0) then Qceiling v else Qfloor v)).

  (** The integer nearest to [y], a half going away from zero. *)
Definition round_half_away (y : Q) : Z :=
    if Qlt_le_dec y 0 then (- Qfloor (- y + (1 # 2)))%Z else Qfloor (y + (1 # 2)).

  (** [v] rounded to [dec] decimals, as the toolkit rounds the number
      typed into or written to a [QDoubleSpinBox]. *)
Definition round_dp (dec : nat) (v : Qc) : Qc :=
    let s := inject_Z (Z.pow 10 (Z.of_nat dec)) in
    Q2Qc (inject_Z (round_half_away (v * s)) / s)%Q.

  (** Spin boxes that keep every number exactly. *)
Definition exact : Toolkit :=
    {| int_store := fun _ _ v => v; double_store := fun _ _ _ v => v |}.

  (** Spin boxes as the toolkit documents them: a [QSpinBox] holds an
      integer of its range, a [QDoubleSpinBox] a number rounded to its
      decimals, within its (rounded) range. *)
Definition rounding : Toolkit :=
    {| int_store := fun lo hi v => clamp lo hi (trunc v);
       double_store := fun dec lo hi v =>
         clamp (round_dp dec lo) (round_dp dec hi) (round_dp dec v) |}.

(** The same spin boxes when a float handed to a [QSpinBox] is rounded to
    the nearest integer instead of truncated. *)
Definition nearest : Toolkit :=
  {| int_store := fun lo hi v => clamp lo hi (round_dp 0 v);
     double_store := fun dec lo hi v =>
       clamp (round_dp dec lo) (round_dp dec hi) (round_dp dec v) |}.

Record QSpinBox : Type := {
    sb_value : Qc;
    sb_minimum : Qc;
    sb_maximum : Qc
  }.

Record QDoubleSpinBox : Type := {
    dsb_value : Qc;
    dsb_decimals : nat;
    dsb_singleStep : Qc;
    dsb_minimum : Qc;
    dsb_maximum : Qc;
    dsb_enabled : bool
  }.

  (** The widgets as their constructors leave them. *)
Definition QSpinBox_new : QSpinBox :=
    {| sb_value := 0; sb_minimum := 0; sb_maximum := Q2Qc 99 |}.

Definition QDoubleSpinBox_new : QDoubleSpinBox :=
    {| dsb_value := 0; dsb_decimals := 2; dsb_singleStep := 1;
       dsb_minimum := 0; dsb_maximum := Q2Qc 99.99; dsb_enabled := true |}.

Section Widgets.
Context {tk : Toolkit}.

    (** Every mutator returns the widget and whether its value changed,
        which is when the toolkit emits [valueChanged]. *)
Definition QSpinBox_setValue (v : Qc) (s : QSpinBox) : QSpinBox * bool :=
      let v' := int_store (sb_minimum s) (sb_maximum s) v in
      ({| sb_value := v'; sb_minimum := sb_minimum s; sb_maximum := sb_maximum s |},
       bool_decide (v' <> sb_value s)).

Definition QSpinBox_setRange (lo hi : Qc) (s : QSpinBox) : QSpinBox * bool :=
      let v' := int_store lo hi (sb_value s) in
      ({| sb_value := v'; sb_minimum := lo; sb_maximum := hi |},
       bool_decide (v' <> sb_value s)).

Definition QDoubleSpinBox_setValue (v : Qc) (s : QDoubleSpinBox) : QDoubleSpinBox * bool :=
      let v' := double_store (dsb_decimals s) (dsb_minimum s) (dsb_maximum s) v in
      ({| dsb_value := v'; dsb_decimals := dsb_decimals s;
          dsb_singleStep := dsb_singleStep s;
          dsb_minimum := dsb_minimum s; dsb_maximum := dsb_maximum s;
          dsb_enabled := dsb_enabled s |},
       bool_decide (v' <> dsb_value s)).

Definition QDoubleSpinBox_setRange (lo hi : Qc) (s : QDoubleSpinBox) : QDoubleSpinBox * bool :=
      let v' := double_store (dsb_decimals s) lo hi (dsb_value s) in
      ({| dsb_value := v'; dsb_decimals := dsb_decimals s;
          dsb_singleStep := dsb_singleStep s;
          dsb_minimum := lo; dsb_maximum := hi;
          dsb_enabled := dsb_enabled s |},
       bool_decide (v' <> dsb_value s)).

Definition QDoubleSpinBox_setDecimals (dec : nat) (s : QDoubleSpinBox) : QDoubleSpinBox * bool :=
      let v' := double_store dec (dsb_minimum s) (dsb_maximum s) (dsb_value s) in
      ({| dsb_value := v'; dsb_decimals := dec;
          dsb_singleStep := dsb_singleStep s;
          dsb_minimum := dsb_minimum s; dsb_maximum := dsb_maximum s;
          dsb_enabled := dsb_enabled s |},
       bool_decide (v' <> dsb_value s)).

Definition QDoubleSpinBox_setSingleStep (st : Qc) (s : QDoubleSpinBox) : QDoubleSpinBox :=
      {| dsb_value := dsb_value s; dsb_decimals := dsb_decimals s;
         dsb_singleStep := st;
         dsb_minimum := dsb_minimum s; dsb_maximum := dsb_maximum s;
         dsb_enabled := dsb_enabled s |}.

Definition QDoubleSpinBox_setEnabled (b : bool) (s : QDoubleSpinBox) : QDoubleSpinBox :=
      {| dsb_value := dsb_value s; dsb_decimals := dsb_decimals s;
         dsb_singleStep := dsb_singleStep s;
         dsb_minimum := dsb_minimum s; dsb_maximum := dsb_maximum s;
         dsb_enabled := b |}.

End Widgets.

End Qt.
Import Qt.

(** ** dialogs.py: ExportImageDialog *)

Module ExportImageDialog.

  (** Class attributes. *)
Definition print_u : gmap string Qc :=
    list_to_map [("in", Q2Qc 39.3701); ("mm", Q2Qc 1000); ("cm", Q2Qc 100); ("m", Q2Qc 1)]%string.

  (** Spin box parameters per print unit: decimals, step, minimum, maximum. *)
Definition print_p : gmap string (nat * Qc * Qc * Qc) :=
    list_to_map [("in", (3%nat, Q2Qc 1, Q2Qc 0.01, Q2Qc 1000));
                 ("mm", (2%nat, Q2Qc 1, Q2Qc 0.1, Q2Qc 100000));
                 ("cm", (3%nat, Q2Qc 1, Q2Qc 0.01, Q2Qc 10000));
                 ("m", (5%nat, Q2Qc 1, Q2Qc 0.0001, Q2Qc 100))]%string.

Definition resolution_u : gmap string Qc :=
    list_to_map [("dpi", Q2Qc 39.3701); ("px/mm", Q2Qc 1000); ("px/cm", Q2Qc 100); ("px/m", Q2Qc 1)]%string.

Definition convert_res_to_unit : gmap string string :=
    list_to_map [("dpi", "in"); ("px/mm", "mm"); ("px/cm", "cm"); ("px/m", "m")]%string.

  (** Ghost events: entries of the two recomputation methods, in order. *)
Inductive call : Set := UpdatePrint | UpdateImage.

  (** The instance attributes the measurement model uses.  A combo box is
      its [currentText()]; [scaling] is [None] for the attribute [False]. *)
Record Dialog : Type := {
    _w : Qc;
    _h : Qc;
    _updating : bool;
    width : QSpinBox;
    height : QSpinBox;
    width_p : QDoubleSpinBox;
    height_p : QDoubleSpinBox;
    print_units : string;
    resolution : QDoubleSpinBox;
    resolution_units : string;
    scaling : option string;
    _current_dimension : string;
    _current_resolution : Qc;
    _current_resolution_units : string;
    calls : list call
  }.

Definition set__w (v : Qc) (self : Dialog) : Dialog :=
    {| _w := v; _h := _h self; _updating := _updating self;
       width := width self; height := height self;
       width_p := width_p self; height_p := height_p self;
       print_units := print_units self; resolution := resolution self;
       resolution_units := resolution_units self; scaling := scaling self;
       _current_dimension := _current_dimension self;
       _current_resolution := _current_resolution self;
       _current_resolution_units := _current_resolution_units self;
       calls := calls self |}.

Definition set__h (v : Qc) (self : Dialog) : Dialog :=
    {| _w := _w self; _h := v; _updating := _updating self;
       width := width self; height := height self;
       width_p := width_p self; height_p := height_p self;
       print_units := print_units self; resolution := resolution self;
       resolution_units := resolution_units self; scaling := scaling self;
       _current_dimension := _current_dimension self;
       _current_resolution := _current_resolution self;
       _current_resolution_units := _current_resolution_units self;
       calls := calls self |}.

Definition set__updating (b : bool) (self : Dialog) : Dialog :=
    {| _w := _w self; _h := _h self; _updating := b;
       width := width self; height := height self;
       width_p := width_p self; height_p := height_p self;
       print_units := print_units self; resolution := resolution self;
       resolution_units := resolution_units self; scaling := scaling self;
       _current_dimension := _current_dimension self;
       _current_resolution := _current_resolution self;
       _current_resolution_units := _current_resolution_units self;
       calls := calls self |}.

Definition set_width (s : QSpinBox) (self : Dialog) : Dialog :=
    {| _w := _w self; _h := _h self; _updating := _updating self;
       width := s; height := height self;
       width_p := width_p self; height_p := height_p self;
       print_units := print_units self; resolution := resolution self;
       resolution_units := resolution_units self; scaling := scaling self;
       _current_dimension := _current_dimension self;
       _current_resolution := _current_resolution self;
       _current_resolution_units := _current_resolution_units self;
       calls := calls self |}.

Definition set_height (s : QSpinBox) (self : Dialog) : Dialog :=
    {| _w := _w self; _h := _h self; _updating := _updating self;
       width := width self; height := s;
       width_p := width_p self; height_p := height_p self;
       print_units := print_units self; resolution := resolution self;
       resolution_units := resolution_units self; scaling := scaling self;
       _current_dimension := _current_dimension self;
       _current_resolution := _current_resolution self;
       _current_resolution_units := _current_resolution_units self;
       calls := calls self |}.

Definition set_width_p (s : QDoubleSpinBox) (self : Dialog) : Dialog :=
    {| _w := _w self; _h := _h self; _updating := _updating self;
       width := width self; height := height self;
       width_p := s; height_p := height_p self;
       print_units := print_units self; resolution := resolution self;
       resolution_units := resolution_units self; scaling := scaling self;
       _current_dimension := _current_dimension self;
       _current_resolution := _current_resolution self;
       _current_resolution_units := _current_resolution_units self;
       calls := calls self |}.

Definition set_height_p (s : QDoubleSpinBox) (self : Dialog) : Dialog :=
    {| _w := _w self; _h := _h self; _updating := _updating self;
       width := width self; height := height self;
       width_p := width_p self; height_p := s;
       print_units := print_units self; resolution := resolution self;
       resolution_units := resolution_units self; scaling := scaling self;
       _current_dimension := _current_dimension self;
       _current_resolution := _current_resolution self;
       _current_resolution_units := _current_resolution_units self;
       calls := calls self |}.

Definition set_print_units (u : string) (self : Dialog) : Dialog :=
    {| _w := _w self; _h := _h self; _updating := _updating self;
       width := width self; height := height self;
       width_p := width_p self; height_p := height_p self;
       print_units := u; resolution := resolution self;
       resolution_units := resolution_units self; scaling := scaling self;
       _current_dimension := _current_dimension self;
       _current_resolution := _current_resolution self;
       _current_resolution_units := _current_resolution_units self;
       calls := calls self |}.

Definition set_resolution (s : QDoubleSpinBox) (self : Dialog) : Dialog :=
    {| _w := _w self; _h := _h self; _updating := _updating self;
       width := width self; height := height self;
       width_p := width_p self; height_p := height_p self;
       print_units := print_units self; resolution := s;
       resolution_units := resolution_units self; scaling := scaling self;
       _current_dimension := _current_dimension self;
       _current_resolution := _current_resolution self;
       _current_resolution_units := _current_resolution_units self;
       calls := calls self |}.

Definition set_resolution_units (u : string) (self : Dialog) : Dialog :=
    {| _w := _w self; _h := _h self; _updating := _updating self;
       width := width self; height := height self;
       width_p := width_p self; height_p := height_p self;
       print_units := print_units self; resolution := resolution self;
       resolution_units := u; scaling := scaling self;
       _current_dimension := _current_dimension self;
       _current_resolution := _current_resolution self;
       _current_resolution_units := _current_resolution_units self;
       calls := calls self |}.

Definition set__current_dimension (u : string) (self : Dialog) : Dialog :=
    {| _w := _w self; _h := _h self; _updating := _updating self;
       width := width self; height := height self;
       width_p := width_p self; height_p := height_p self;
       print_units := print_units self; resolution := resolution self;
       resolution_units := resolution_units self; scaling := scaling self;
       _current_dimension := u;
       _current_resolution := _current_resolution self;
       _current_resolution_units := _current_resolution_units self;
       calls := calls self |}.

Definition set__current_resolution (v : Qc) (self : Dialog) : Dialog :=
    {| _w := _w self; _h := _h self; _updating := _updating self;
       width := width self; height := height self;
       width_p := width_p self; height_p := height_p self;
       print_units := print_units self; resolution := resolution self;
       resolution_units := resolution_units self; scaling := scaling self;
       _current_dimension := _current_dimension self;
       _current_resolution := v;
       _current_resolution_units := _current_resolution_units self;
       calls := calls self |}.

Definition set__current_resolution_units (u : string) (self : Dialog) : Dialog :=
    {| _w := _w self; _h := _h self; _updating := _updating self;
       width := width self; height := height self;
       width_p := width_p self; height_p := height_p self;
       print_units := print_units self; resolution := resolution self;
       resolution_units := resolution_units self; scaling := scaling self;
       _current_dimension := _current_dimension self;
       _current_resolution := _current_resolution self;
       _current_resolution_units := u;
       calls := calls self |}.

Definition record_call (c : call) (self : Dialog) : Dialog :=
    {| _w := _w self; _h := _h self; _updating := _updating self;
       width := width self; height := height self;
       width_p := width_p self; height_p := height_p self;
       print_units := print_units self; resolution := resolution self;
       resolution_units := resolution_units self; scaling := scaling self;
       _current_dimension := _current_dimension self;
       _current_resolution := _current_resolution self;
       _current_resolution_units := _current_resolution_units self;
       calls := calls self ++ [c] |}.

  (** The signals the constructor connects a slot to. *)
Inductive signal : Set :=
  | width_valueChanged
  | height_valueChanged
  | width_p_valueChanged
  | height_p_valueChanged
  | resolution_units_currentIndexChanged
  | resolution_valueChanged
  | print_units_currentIndexChanged.

  (** ** Conversions (they read the widgets, they change nothing) *)

Definition get_converted_measurement (self : Dialog) (x : Qc) (f t : string) : res Qc :=
    f ← getitem print_u f;
    t ← getitem print_u t;
    q ← truediv x f;
    mret (q * t).

Definition get_as_print_size (self : Dialog) (s : Qc) (u : string) : res Qc :=
    let ps := dsb_value (resolution self) in
    let ps_u := resolution_units self in
    k ← getitem resolution_u ps_u;
    s ← truediv s (ps * k);
    get_converted_measurement self s "m" u.

Definition get_print_size (self : Dialog) (u : string) : res (Qc * Qc) :=
    a ← get_as_print_size self (_w self) u;
    b ← get_as_print_size self (_h self) u;
    mret (a, b).

Definition get_pixel_size (self : Dialog) (s : Qc) (pu : string) (r : Qc) (ru : string) : res Qc :=
    k ← getitem print_u pu;
    s ← truediv s k;
    g ← getitem resolution_u ru;
    let rm := r * g in
    mret (s * rm).

Definition get_dots_per_meter (self : Dialog) : res Qc :=
    k ← getitem resolution_u (resolution_units self);
    mret (dsb_value (resolution self) * k).

Definition get_dots_per_inch (self : Dialog) : res Qc :=
    if decide (resolution_units self = "in")
    then mret (dsb_value (resolution self))
    else u ← getitem convert_res_to_unit (resolution_units self);
         get_converted_measurement self (dsb_value (resolution self)) u "in".

Definition get_resample (self : Dialog) : bool :=
    match scaling self with
    | Some t => bool_decide (t = "Resample")
    | None => false
    end.

  (** ** Slots and the methods that write to the widgets

      A write to a widget delivers the widget's signal to its slot before
      it returns, when the value changed.  [emit] is that delivery. *)
Section Methods.
Context {tk : Toolkit}.
Variable emit : signal -> Dialog -> res Dialog.

Definition deliver (changed : bool) (sig : signal) (self : Dialog) : res Dialog :=
      if changed then emit sig self else Ok self.

Definition width_setValue (v : Qc) (self : Dialog) : res Dialog :=
      let '(s, c) := QSpinBox_setValue v (width self) in
      deliver c width_valueChanged (set_width s self).

Definition height_setValue (v : Qc) (self : Dialog) : res Dialog :=
      let '(s, c) := QSpinBox_setValue v (height self) in
      deliver c height_valueChanged (set_height s self).

Definition width_p_setValue (v : Qc) (self : Dialog) : res Dialog :=
      let '(s, c) := QDoubleSpinBox_setValue v (width_p self) in
      deliver c width_p_valueChanged (set_width_p s self).

Definition height_p_setValue (v : Qc) (self : Dialog) : res Dialog :=
      let '(s, c) := QDoubleSpinBox_setValue v (height_p self) in
      deliver c height_p_valueChanged (set_height_p s self).

Definition resolution_setValue (v : Qc) (self : Dialog) : res Dialog :=
      let '(s, c) := QDoubleSpinBox_setValue v (resolution self) in
      deliver c resolution_valueChanged (set_resolution s self).

    (** The three configuration calls of [changed_print_units] on one of
        the print spin boxes. *)
Definition width_p_configure (p : nat * Qc * Qc * Qc) (self : Dialog) : res Dialog :=
      let '(dec, step, lo, hi) := p in
      let '(s, c) := QDoubleSpinBox_setDecimals dec (width_p self) in
      self ← deliver c width_p_valueChanged (set_width_p s self);
      let self := set_width_p (QDoubleSpinBox_setSingleStep step (width_p self)) self in
      let '(s, c) := QDoubleSpinBox_setRange lo hi (width_p self) in
      deliver c width_p_valueChanged (set_width_p s self).

Definition height_p_configure (p : nat * Qc * Qc * Qc) (self : Dialog) : res Dialog :=
      let '(dec, step, lo, hi) := p in
      let '(s, c) := QDoubleSpinBox_setDecimals dec (height_p self) in
      self ← deliver c height_p_valueChanged (set_height_p s self);
      let self := set_height_p (QDoubleSpinBox_setSingleStep step (height_p self)) self in
      let '(s, c) := QDoubleSpinBox_setRange lo hi (height_p self) in
      deliver c height_p_valueChanged (set_height_p s self).

    (** Update print dimensions using the image dimensions and resolution. *)
Definition update_print_dimensions (self : Dialog) : res Dialog :=
      let self := record_call UpdatePrint self in
      let self := set__w (sb_value (width self)) self in
      let self := set__h (sb_value (height self)) self in
      let print_units := print_units self in
      w_p ← get_as_print_size self (_w self) print_units;
      h_p ← get_as_print_size self (_h self) print_units;
      self ← width_p_setValue w_p self;
      height_p_setValue h_p self.

    (** Update image dimensions using the print dimensions and resolution.
        The second write reads [self._h] after the first has delivered its
        signal. *)
Definition update_image_dimensions (self : Dialog) : res Dialog :=
      let self := record_call UpdateImage self in
      let w_p := dsb_value (width_p self) in
      let h_p := dsb_value (height_p self) in
      let print_units := print_units self in
      let resolution := dsb_value (resolution self) in
      let resolution_units := resolution_units self in
      w ← get_pixel_size self w_p print_units resolution resolution_units;
      let self := set__w w self in
      h ← get_pixel_size self h_p print_units resolution resolution_units;
      let self := set__h h self in
      self ← width_setValue (_w self) self;
      height_setValue (_h self) self.

Definition changed_image_dimensions (self : Dialog) : res Dialog :=
      self ← (if negb (_updating self)
              then update_print_dimensions (set__updating true self)
              else Ok self);
      let self := set__updating false self in
      let self := set__w (sb_value (width self)) self in
      let self := set__h (sb_value (height self)) self in
      Ok self.

Definition changed_print_dimensions (self : Dialog) : res Dialog :=
      self ← (if negb (_updating self)
              then update_image_dimensions (set__updating true self)
              else Ok self);
      Ok (set__updating false self).

Definition changed_print_resolution (self : Dialog) : res Dialog :=
      let w_p := dsb_value (width_p self) in
      let h_p := dsb_value (height_p self) in
      let new_resolution := dsb_value (resolution self) in
      q ← truediv w_p (_current_resolution self);
      self ← width_p_setValue (q * new_resolution) self;
      q ← truediv h_p (_current_resolution self);
      self ← height_p_setValue (q * new_resolution) self;
      Ok (set__current_resolution (dsb_value (resolution self)) self).

Definition changed_print_units (self : Dialog) : res Dialog :=
      let dimension_t := print_units self in
      p ← getitem print_p dimension_t;
      self ← height_p_configure p self;
      self ← width_p_configure p self;
      self ← (if decide (dimension_t <> _current_dimension self)
              then
                w ← get_converted_measurement self (dsb_value (width_p self))
                      (_current_dimension self) dimension_t;
                self ← width_p_setValue w self;
                h ← get_converted_measurement self (dsb_value (height_p self))
                      (_current_dimension self) dimension_t;
                height_p_setValue h self
              else Ok self);
      Ok (set__current_dimension dimension_t self).

Definition changed_resolution_units (self : Dialog) : res Dialog :=
      let ru := resolution_units self in
      a ← getitem resolution_u (_current_resolution_units self);
      b ← getitem resolution_u ru;
      v ← truediv (dsb_value (resolution self) * a) b;
      self ← resolution_setValue v self;
      Ok (set__current_resolution_units ru self).

    (** The connections made at the end of the constructor. *)
Definition slot (sig : signal) : Dialog -> res Dialog :=
      match sig with
      | width_valueChanged | height_valueChanged => changed_image_dimensions
      | width_p_valueChanged | height_p_valueChanged => changed_print_dimensions
      | resolution_units_currentIndexChanged => changed_resolution_units
      | resolution_valueChanged => changed_print_resolution
      | print_units_currentIndexChanged => changed_print_units
      end.

End Methods.

  (** Signal delivery, with a bound [n] on the depth of nested
      deliveries. *)
Fixpoint emit {tk : Toolkit} (n : nat) (sig : signal) (self : Dialog) : res Dialog :=
    match n with
    | O => Diverge
    | S n => slot (emit n) sig self
    end.

  (** Before the constructor connects the slots, signals reach nothing. *)
Definition unconnected (sig : signal) (self : Dialog) : res Dialog := Ok self.

  (** The constructor, up to the widgets the measurement model uses. *)
Definition __init__ {tk : Toolkit} (size : Qc * Qc) (dpm : Qc)
      (show_rerender_options : bool) : res Dialog :=
    let w := fst (QSpinBox_setRange 1 (Q2Qc 100000) QSpinBox_new) in
    let h := fst (QSpinBox_setRange 1 (Q2Qc 100000) QSpinBox_new) in
    let w_p := fst (QDoubleSpinBox_setRange (Q2Qc 0.0001) (Q2Qc 10000) QDoubleSpinBox_new) in
    let h_p := fst (QDoubleSpinBox_setRange (Q2Qc 0.0001) (Q2Qc 10000) QDoubleSpinBox_new) in
    let r := fst (QDoubleSpinBox_setRange 1 (Q2Qc 1000000) QDoubleSpinBox_new) in
    let r := fst (QDoubleSpinBox_setValue (Q2Qc 300) r) in
    let r := fst (QDoubleSpinBox_setDecimals 2 r) in
    let self :=
      {| _w := fst size; _h := snd size; _updating := false;
         width := w; height := h; width_p := w_p; height_p := h_p;
         print_units := "cm"; resolution := r; resolution_units := "dpi";
         scaling := if show_rerender_options then Some "Resample"%string else None;
         _current_dimension := ""; _current_resolution := 0;
         _current_resolution_units := ""; calls := [] |} in
    self ← width_setValue unconnected (_w self) self;
    self ← height_setValue unconnected (_h self) self;
    self ← update_print_dimensions unconnected self;
    let self := set__current_dimension (print_units self) self in
    let self := set__current_resolution (dsb_value (resolution self)) self in
    let self := set__current_resolution_units (resolution_units self) self in
    Ok self.

  (** What the user can do to the dialog's fields.  An edit goes through
      the same write as a programmatic one. *)
Inductive edit : Type :=
  | EditWidth (v : Qc)
  | EditHeight (v : Qc)
  | EditWidthP (v : Qc)
  | EditHeightP (v : Qc)
  | EditResolution (v : Qc)
  | SelectPrintUnits (u : string)
  | SelectResolutionUnits (u : string).

Definition user {tk : Toolkit} (n : nat) (e : edit) (self : Dialog) : res Dialog :=
    match e with
    | EditWidth v => width_setValue (emit n) v self
    | EditHeight v => height_setValue (emit n) v self
    | EditWidthP v => width_p_setValue (emit n) v self
    | EditHeightP v => height_p_setValue (emit n) v self
    | EditResolution v => resolution_setValue (emit n) v self
    | SelectPrintUnits u =>
        deliver (emit n) (bool_decide (u <> print_units self))
          print_units_currentIndexChanged (set_print_units u self)
    | SelectResolutionUnits u =>
        deliver (emit n) (bool_decide (u <> resolution_units self))
          resolution_units_currentIndexChanged (set_resolution_units u self)
    end.

  (** A session: the constructor followed by a sequence of edits. *)
Fixpoint session {tk : Toolkit} (n : nat) (es : list edit) (self : Dialog) : res Dialog :=
    match es with
    | [] => Ok self
    | e :: es => self ← user n e self; session n es self
    end.

End ExportImageDialog.

(** ** dialogs.py: GenericDialog.setListControl *)

Module GenericDialog.

  (** The list control handed to [setListControl]: its items and the set
      of selected positions. *)
Record Control : Type := {
    items : list string;
    selected : gset nat
  }.

Definition GetItems (control : Control) : list string := items control.

Definition Select (idx : nat) (control : Control) : Control :=
    {| items := items control; selected := {[idx]} ∪ selected control |}.

Definition Deselect (idx : nat) (control : Control) : Control :=
    {| items := items control; selected := selected control ∖ {[idx]} |}.

  (** The loop over [idxs]. *)
Fixpoint mark (checked : bool) (idxs : list nat) (control : Control) : Control :=
    match idxs with
    | [] => control
    | idx :: idxs =>
        mark checked idxs (if checked then Select idx control else Deselect idx control)
    end.

  (** [try: idxs = [...]; for idx in idxs: ... except: pass].  The list
      of positions is complete before the first item is marked. *)
Definition setListControl (control : Control) (list : list string) (checked : bool)
      : res Control :=
    let items := GetItems control in
    match comprehension (index items) list with
    | Ok idxs => Ok (mark checked idxs control)
    | Raise _ => Ok control
    | Diverge => Diverge
    end.

  (** [__init__]: the loop that collects the flags of the button box,
      [Qbtn = 0; for k in buttons: Qbtn = Qbtn | QButtons[k]].  [ok] and
      [cancel] stand for the toolkit's flags [QDialogButtonBox.Ok] and
      [QDialogButtonBox.Cancel]. *)
Definition QButtons (ok cancel : Z) : gmap string Z :=
    <["ok"%string := ok]> (<["cancel"%string := cancel]> ∅).

Fixpoint Qbtn_loop (ok cancel : Z) (Qbtn : Z) (buttons : list string) : res Z :=
    match buttons with
    | [] => Ok Qbtn
    | k :: buttons =>
        f ← getitem (QButtons ok cancel) k;
        Qbtn_loop ok cancel (Z.lor Qbtn f) buttons
    end.

Definition __init__ (ok cancel : Z) (buttons : list string) : res Z :=
    Qbtn_loop ok cancel 0%Z buttons.

End GenericDialog.

(** ** widgets.py *)

Module QColorButton.

Record Button : Type := {
    _color : option string;
    is_reset_enabled : bool;
    styleSheet : string;
    colorChanged : nat   (* how often the signal was emitted *)
  }.

Definition __init__ (is_reset_enabled : bool) : Button :=
    {| _color := None; is_reset_enabled := is_reset_enabled;
       styleSheet := ""; colorChanged := 0 |}.

  (** Truth value of [self._color]: [None] and the empty string are false. *)
Definition truthy (c : option string) : bool :=
    match c with
    | Some s => negb (bool_decide (s = ""%string))
    | None => false
    end.

Definition setStyleSheet (s : string) (self : Button) : Button :=
    {| _color := _color self; is_reset_enabled := is_reset_enabled self;
       styleSheet := s; colorChanged := colorChanged self |}.

Definition setColor (color : option string) (self : Button) : Button :=
    let self :=
      if decide (color <> _color self)
      then {| _color := color; is_reset_enabled := is_reset_enabled self;
              styleSheet := styleSheet self;
              colorChanged := S (colorChanged self) |}
      else self in
    if truthy (_color self)
    then setStyleSheet ("background-color: " ++ default "" (_color self) ++ ";") self
    else setStyleSheet "" self.

Definition color (self : Button) : option string := _color self.

  (** [picked] is the colour name of the dialog when it was accepted. *)
Definition onColorPicker (picked : option string) (self : Button) : Button :=
    match picked with
    | Some name => setColor (Some name) self
    | None => self
    end.

(** [mousePressEvent(e)].  The event that is not a reset goes to the push
    button of the toolkit, which emits [pressed] for the left button only;
    [pressed] is connected to [onColorPicker]. *)
Inductive MouseButton : Set := LeftButton | RightButton | MiddleButton.

Definition mousePressEvent (button : MouseButton) (picked : option string)
    (self : Button) : Button :=
  if is_reset_enabled self
     && match button with RightButton => true | _ => false end
  then setColor None self
  else match button with
       | LeftButton => onColorPicker picked self
       | _ => self
       end.

End QColorButton.

Module QNoneDoubleSpinBox.

Record SpinBox : Type := {
    base : QDoubleSpinBox;
    is_None : bool;
    valueChanged : list Qc   (* the values the signal was emitted with *)
  }.

Definition __init__ : SpinBox :=
    {| base := QDoubleSpinBox_new; is_None := false; valueChanged := [] |}.

Definition value (self : SpinBox) : option Qc :=
    if is_None self then None else Some (dsb_value (base self)).

Definition setValue {tk : Toolkit} (v : option Qc) (self : SpinBox) : SpinBox :=
    match v with
    | None =>
        {| base := QDoubleSpinBox_setEnabled false (base self);
           is_None := true;
           valueChanged := valueChanged self ++ [Q2Qc (-65535)] |}
    | Some v =>
        let b := QDoubleSpinBox_setEnabled true (base self) in
        let '(b', changed) := QDoubleSpinBox_setValue v b in
        {| base := b'; is_None := false;
           valueChanged := if changed then valueChanged self ++ [dsb_value b']
                           else valueChanged self |}
    end.

  (** [event(e)] for a context-menu event. *)
Definition contextMenuEvent {tk : Toolkit} (self : SpinBox) : SpinBox :=
    if is_None self then setValue (Some (dsb_value (base self))) self
    else setValue None self.

End QNoneDoubleSpinBox.

Module QListWidgetAddRemove.

  (** The operations of the toolkit's list widget that the class wraps,
      on a widget state [B]; each returns its result and the new state. *)
Class QListWidget (B item : Type) : Type := {
    super_addItem : item -> B -> unit * B;
    super_addItems : list item -> B -> unit * B;
    super_takeItem : Z -> B -> option item * B;
    super_clear : B -> unit * B
  }.

  (** A list widget as the list of its rows. *)
#[global] Instance rows (item : Type) : QListWidget (list item) item := {
    super_addItem := fun x l => (tt, l ++ [x]);
    super_addItems := fun xs l => (tt, l ++ xs);
    super_takeItem := fun row l =>
      if decide (0 <= row < Z.of_nat (length l))%Z
      then (l !! Z.to_nat row, delete (Z.to_nat row) l)
      else (None, l);
    super_clear := fun _ => (tt, [])
  }.

Section Class.
Context {B item : Type} {Base : QListWidget B item}.

Record Widget : Type := {
      super : B;
      itemAddedOrRemoved : nat   (* how often the signal was emitted *)
    }.

Definition emit (b : B) (self : Widget) : Widget :=
      {| super := b; itemAddedOrRemoved := S (itemAddedOrRemoved self) |}.

Definition addItem (x : item) (self : Widget) : unit * Widget :=
      let '(r, b) := super_addItem x (super self) in
      (r, emit b self).

Definition addItems (xs : list item) (self : Widget) : unit * Widget :=
      let '(r, b) := super_addItems xs (super self) in
      (r, emit b self).

Definition removeItemAt (row : Z) (self : Widget) : option item * Widget :=
      let '(r, b) := super_takeItem row (super self) in
      (r, emit b self).

Definition clear (self : Widget) : unit * Widget :=
      let '(r, b) := super_clear (super self) in
      (r, emit b self).

End Class.
Arguments Widget B : clear implicits.

End QListWidgetAddRemove.

Module QFileOpenLineEdit.

(** The widget and its line edit.  The constructor connects the widget's
    [textChanged] to the line edit's [setText] and the line edit's
    [textChanged] to the widget's [setText]; the line edit emits its signal
    when its text changes. *)
Record Widget : Type := {
  _text : option string;
  lineedit : string;      (* the text of the line edit *)
  textChanged : list string   (* the texts the widget's signal was emitted with *)
}.

Definition __init__ : Widget :=
  {| _text := None; lineedit := ""; textChanged := [] |}.

Definition text (self : Widget) : option string := _text self.

(** [setText], with the slot of [textChanged] ([lineedit.setText]) and,
    when the line edit changes, the slot of its signal ([setText] again);
    [n] bounds the nested deliveries. *)
Fixpoint setText (n : nat) (t : string) (self : Widget) : res Widget :=
  match n with
  | O => Diverge
  | S n =>
      let self := {| _text := Some t; lineedit := lineedit self;
                     textChanged := textChanged self ++ [t] |} in
      if decide (lineedit self = t) then Ok self
      else setText n t {| _text := _text self; lineedit := t;
                          textChanged := textChanged self |}
  end.

(** The user types into the line edit. *)
Definition typed (n : nat) (t : string) (self : Widget) : res Widget :=
  if decide (lineedit self = t) then Ok self
  else setText n t {| _text := _text self; lineedit := t;
                      textChanged := textChanged self |}.

(** [onSelectPath], for the file name the file dialog returned (empty
    when it was cancelled); the same in the three classes, up to the
    dialog that is shown. *)
Definition onSelectPath (n : nat) (filename : string) (self : Widget) : res Widget :=
  if decide (filename = ""%string) then Ok self else setText n filename self.

End QFileOpenLineEdit.

(** ** The vocabulary of the specification *)

Import ExportImageDialog.

(** The print units and the resolution units of the two combo boxes. *)
Inductive print_unit : Set := inch | millimetre | centimetre | metre.

Inductive resolution_unit : Set := dpi | px_per_mm | px_per_cm | px_per_m.

Definition print_unit_name (u : print_unit) : string :=
  match u with
  | inch => "in"
  | millimetre => "mm"
  | centimetre => "cm"
  | metre => "m"
  end.

Definition resolution_unit_name (u : resolution_unit) : string :=
  match u with
  | dpi => "dpi"
  | px_per_mm => "px/mm"
  | px_per_cm => "px/cm"
  | px_per_m => "px/m"
  end.

(** The ratio of a print unit against the metre, as the specification
    lists it. *)
Definition factor (u : print_unit) : Qc :=
  match u with
  | inch => Q2Qc 39.3701
  | millimetre => Q2Qc 1000
  | centimetre => Q2Qc 100
  | metre => Q2Qc 1
  end.

(** The number of dots per metre of one dot per resolution unit. *)
Definition per_metre (u : resolution_unit) : Qc :=
  match u with
  | dpi => Q2Qc 39.3701
  | px_per_mm => Q2Qc 1000
  | px_per_cm => Q2Qc 100
  | px_per_m => Q2Qc 1
  end.

(** The invariant of the specification on the displayed values:
    pixel size = print size in metres x resolution in dots per metre,
    for the width and for the height, up to a tolerance [tol] in pixels
    since the fields round what they are given. *)
Definition consistent_within (tol : Qc) (self : Dialog) : Prop :=
  exists w h,
    get_pixel_size self (dsb_value (width_p self)) (print_units self)
      (dsb_value (resolution self)) (resolution_units self) = Ok w
    /\ get_pixel_size self (dsb_value (height_p self)) (print_units self)
         (dsb_value (resolution self)) (resolution_units self) = Ok h
    /\ (w - tol <= sb_value (width self) /\ sb_value (width self) <= w + tol)
    /\ (h - tol <= sb_value (height self) /\ sb_value (height self) <= h + tol).

(** The print size of a displayed value in metres. *)
Definition in_metres (self : Dialog) (x : Qc) : res Qc :=
  get_converted_measurement self x (print_units self) "m".

(** A number returned by the code, read as a rational. *)
Definition returns (r : res Qc) (q : Q) : Prop := r = Ok (Q2Qc q).

(** The dialog as constructed with the default arguments and the given
    size, then edited. *)
Definition edited {tk : Toolkit} (w h : Q) (es : list edit) : res Dialog :=
  self ← __init__ (Q2Qc w, Q2Qc h) (Q2Qc 11811) false;
  session 8 es self.

(** A dialog with empty widgets, and the dialog the constructor returns
    for the given size. *)
Definition blank : Dialog :=
  {| _w := 0; _h := 0; _updating := false;
     width := QSpinBox_new; height := QSpinBox_new;
     width_p := QDoubleSpinBox_new; height_p := QDoubleSpinBox_new;
     print_units := "cm"; resolution := QDoubleSpinBox_new;
     resolution_units := "dpi"; scaling := None;
     _current_dimension := "cm"; _current_resolution := 0;
     _current_resolution_units := "dpi"; calls := [] |}.

Definition constructed {tk : Toolkit} (w h : Q) : Dialog :=
  match edited w h [] with
  | Ok self => self
  | _ => blank
  end.

(** C9, the claim as the specification states it: the signal is emitted
    if and only if the colour differs from the stored one, [color()] then
    returns the colour, and the style shows the colour when it is not
    [None] and is cleared when it is [None]. *)
Definition setColor_claim (self : QColorButton.Button) (c : option string) : Prop :=
  let after := QColorButton.setColor c self in
  (QColorButton.colorChanged after = S (QColorButton.colorChanged self)
   <-> c <> QColorButton._color self)
  /\ QColorButton.color after = c
  /\ QColorButton.styleSheet after
     = match c with
       | Some s => ("background-color: " ++ s ++ ";")%string
       | None => ""%string
       end.

(** C3 fails in a session: after the print height was edited, an edit of
    the pixel width starts one cascade in which [update_print_dimensions]
    is followed by [update_image_dimensions], and the print height that
    was typed is overwritten. *)
Definition guard_fails {tk : Toolkit} : Prop :=
  exists d1 d2,
    edited 610 600 [EditHeightP (Q2Qc 5.02)] = Ok d1
    /\ user 8 (EditWidth (Q2Qc 700)) d1 = Ok d2
    /\ (sb_value (height d1) = Q2Qc 600 /\ dsb_value (height_p d1) = Q2Qc 5.02)
    /\ calls d2 = calls d1 ++ [UpdatePrint; UpdateImage]
    /\ dsb_value (height_p d2) = Q2Qc 5.08.

(** A dialog on which no handler can fail: the four unit names are keys
    of their tables, the resolution field has the decimals and the range
    the constructor gave it, and the displayed and the remembered
    resolution are positive. *)
Definition safe (self : Dialog) : Prop :=
  (exists pu, print_units self = print_unit_name pu)
  /\ (exists ru, resolution_units self = resolution_unit_name ru)
  /\ (exists pu, _current_dimension self = print_unit_name pu)
  /\ (exists ru, _current_resolution_units self = resolution_unit_name ru)
  /\ dsb_decimals (resolution self) = 2%nat
  /\ dsb_minimum (resolution self) = 1
  /\ dsb_maximum (resolution self) = Q2Qc 1000000
  /\ 0 < dsb_value (resolution self)
  /\ 0 < _current_resolution self.

(** A call that returns a safe dialog or is cut by the bound on nested
    signals, and raises nothing. *)
Definition safely (r : res Dialog) : Prop :=
  match r with
  | Ok self => safe self
  | Raise _ => False
  | Diverge => True
  end.

(** Spin boxes whose resolution field, with two decimals and the range
    from 1 to 1000000, holds positive numbers only. *)
Definition keeps_resolution_positive (tk : Toolkit) : Prop :=
  forall v, 0 < double_store 2 1 (Q2Qc 1000000) v.

(** The edits that pick a unit pick one of the combo box. *)
Definition selectable (e : edit) : Prop :=
  match e with
  | SelectPrintUnits u => exists pu, u = print_unit_name pu
  | SelectResolutionUnits u => exists ru, u = resolution_unit_name ru
  | _ => True
  end.

(** The dialog while the constructor runs, before it remembers the
    units and the resolution: the combo boxes show their first entries and
    the resolution field is set up. *)
Definition configured (self : Dialog) : Prop :=
  print_units self = "cm"%string
  /\ resolution_units self = "dpi"%string
  /\ dsb_decimals (resolution self) = 2%nat
  /\ dsb_minimum (resolution self) = 1
  /\ dsb_maximum (resolution self) = Q2Qc 1000000
  /\ 0 < dsb_value (resolution self).

Definition configures (r : res Dialog) : Prop :=
  match r with
  | Ok self => configured self
  | _ => False
  end.



(** * Properties *)

(** ** Arithmetic on the canonical rationals *)

Lemma Qc_decide_eq (a b : Qc) : Qeq_bool a b = true -> a = b.
Proof. intros H. apply Qc_is_canon. now apply Qeq_bool_iff. Qed.

Lemma returns_intro (r : res Qc) (q : Q) :
  match r with Ok a => Qeq_bool a q | _ => false end = true -> returns r q.
Proof.
  destruct r as [a| |]; try discriminate. intros H. unfold returns. f_equal.
  apply Qc_is_canon. apply Qeq_bool_iff in H. rewrite H.
  simpl. symmetry. apply Qred_correct.
Qed.

Lemma Qc_pos_nonzero (a : Qc) : 0 < a -> a <> 0.
Proof. intros H E. symmetry in E. revert E. now apply Qclt_not_eq. Qed.

Lemma factor_pos (u : print_unit) : 0 < factor u.
Proof. destruct u; reflexivity. Qed.

Lemma per_metre_pos (u : resolution_unit) : 0 < per_metre u.
Proof. destruct u; reflexivity. Qed.

Lemma factor_nonzero (u : print_unit) : factor u <> 0.
Proof. apply Qc_pos_nonzero, factor_pos. Qed.

Lemma per_metre_nonzero (u : resolution_unit) : per_metre u <> 0.
Proof. apply Qc_pos_nonzero, per_metre_pos. Qed.

Lemma Qcmult_nonzero (a b : Qc) : a <> 0 -> b <> 0 -> a * b <> 0.
Proof.
  intros Ha Hb E. destruct (Qcmult_integral _ _ E); contradiction.
Qed.

Ltac nonzero :=
  repeat apply Qcmult_nonzero;
  first [ assumption
        | apply factor_nonzero
        | apply per_metre_nonzero
        | apply Qc_pos_nonzero; assumption
        | discriminate ].

(** ** The dicts and the division *)

Lemma getitem_print_u (u : print_unit) :
  getitem print_u (print_unit_name u) = Ok (factor u).
Proof. destruct u; reflexivity. Qed.

Lemma getitem_resolution_u (u : resolution_unit) :
  getitem resolution_u (resolution_unit_name u) = Ok (per_metre u).
Proof. destruct u; reflexivity. Qed.

Lemma truediv_nonzero (x y : Qc) : y <> 0 -> truediv x y = Ok (x / y).
Proof. intros H. unfold truediv. destruct (decide (y = 0)); [contradiction | reflexivity]. Qed.

Lemma get_converted_measurement_eq (self : Dialog) (x : Qc) (f t : print_unit) :
  get_converted_measurement self x (print_unit_name f) (print_unit_name t)
  = Ok (x / factor f * factor t).
Proof.
  unfold get_converted_measurement.
  rewrite !getitem_print_u. cbn [mbind res_bind mret res_ret].
  rewrite truediv_nonzero by apply factor_nonzero. reflexivity.
Qed.

Lemma get_pixel_size_eq (self : Dialog) (s r : Qc) (pu : print_unit) (ru : resolution_unit) :
  get_pixel_size self s (print_unit_name pu) r (resolution_unit_name ru)
  = Ok (s / factor pu * (r * per_metre ru)).
Proof.
  unfold get_pixel_size.
  rewrite getitem_print_u. cbn [mbind res_bind mret res_ret].
  rewrite truediv_nonzero by apply factor_nonzero. cbn [mbind res_bind mret res_ret].
  rewrite getitem_resolution_u. reflexivity.
Qed.

Lemma get_as_print_size_eq (self : Dialog) (s : Qc) (pu : print_unit) (ru : resolution_unit) :
  resolution_units self = resolution_unit_name ru ->
  dsb_value (resolution self) <> 0 ->
  get_as_print_size self s (print_unit_name pu)
  = Ok (s / (dsb_value (resolution self) * per_metre ru) / Q2Qc 1 * factor pu).
Proof.
  intros Hru Hr. unfold get_as_print_size. rewrite Hru, getitem_resolution_u.
  cbn [mbind res_bind mret res_ret].
  rewrite truediv_nonzero by (apply Qcmult_nonzero; [assumption | apply per_metre_nonzero]).
  cbn [mbind res_bind mret res_ret].
  apply (get_converted_measurement_eq self _ metre pu).
Qed.

(** ** Unit conversion *)

(** C2. For every value [x] and print units [f], [t] among in, mm, cm and
    m, [get_converted_measurement(x, f, t)] returns [x / factor f * factor t]
    with the factors 39.3701, 1000, 100 and 1; the result is the same for
    every dialog state, and the call returns nothing but that number. *)
Theorem get_converted_measurement_pure (self : Dialog) (x : Qc) (f t : print_unit) :
  get_converted_measurement self x (print_unit_name f) (print_unit_name t)
  = Ok (x / factor f * factor t)
  /\ forall other : Dialog,
       get_converted_measurement other x (print_unit_name f) (print_unit_name t)
       = get_converted_measurement self x (print_unit_name f) (print_unit_name t).
Proof.
  split.
  - apply get_converted_measurement_eq.
  - intros other. now rewrite !get_converted_measurement_eq.
Qed.

(** C5. With the resolution [r > 0] and the resolution unit [ru] that the
    dialog's fields hold, converting a size [s] to a print size in the
    unit [u] and back to pixels gives [s] again. *)
Theorem get_pixel_size_get_as_print_size (self : Dialog) (s : Qc)
    (u : print_unit) (ru : resolution_unit) :
  resolution_units self = resolution_unit_name ru ->
  0 < dsb_value (resolution self) ->
  (p ← get_as_print_size self s (print_unit_name u);
   get_pixel_size self p (print_unit_name u)
     (dsb_value (resolution self)) (resolution_units self))
  = Ok s.
Proof.
  intros Hru Hr. pose proof (Qc_pos_nonzero _ Hr) as Hr0.
  rewrite (get_as_print_size_eq self s u ru Hru Hr0).
  cbn [mbind res_bind]. rewrite Hru, get_pixel_size_eq. f_equal.
  field. repeat split; nonzero.
Qed.

Lemma get_pixel_size_get_as_print_size_witness :
  (p ← get_as_print_size (@constructed exact 800 600) (Q2Qc 800) "cm";
   get_pixel_size (@constructed exact 800 600) p "cm" (Q2Qc 300) "dpi")
  = Ok (Q2Qc 800).
Proof.
  apply (get_pixel_size_get_as_print_size (@constructed exact 800 600)
           (Q2Qc 800) centimetre dpi); reflexivity.
Defined.

(** C8 (the code departs from it). With the resolution unit px/mm
    selected on the default dialog, the resolution is 11811.03 dots per
    metre, that is 300 dots per inch, and [get_dots_per_inch] returns
    0.465001432203. *)
Theorem get_dots_per_inch_px_per_mm :
  exists self : Dialog,
    @edited exact 800 600 [SelectResolutionUnits "px/mm"] = Ok self
    /\ returns (get_dots_per_meter self) 11811.03
    /\ returns (m ← get_dots_per_meter self; truediv m (Q2Qc 39.3701)) 300
    /\ returns (get_dots_per_inch self) 0.465001432203.
Proof.
  eexists. split; [vm_compute; reflexivity |].
  repeat split; apply returns_intro; vm_compute; reflexivity.
Qed.

(** ** widgets.py *)

(** C6. Each of [addItem], [addItems], [removeItemAt] and [clear] emits
    [itemAddedOrRemoved] once and returns what the wrapped list widget
    returns, leaving the list widget as the wrapped operation leaves it;
    on a widget that is the list of its rows, [removeItemAt] returns the
    item of the given row. *)
Theorem QListWidgetAddRemove_emits_once {B item : Type}
    {Base : QListWidgetAddRemove.QListWidget B item}
    (self : QListWidgetAddRemove.Widget B) (x : item) (xs : list item) (row : Z) :
  let emitted w := QListWidgetAddRemove.itemAddedOrRemoved w in
  let super w := QListWidgetAddRemove.super w in
  (let '(r, w) := QListWidgetAddRemove.addItem x self in
   (r, super w) = QListWidgetAddRemove.super_addItem x (super self)
   /\ emitted w = S (emitted self))
  /\ (let '(r, w) := QListWidgetAddRemove.addItems xs self in
      (r, super w) = QListWidgetAddRemove.super_addItems xs (super self)
      /\ emitted w = S (emitted self))
  /\ (let '(r, w) := QListWidgetAddRemove.removeItemAt row self in
      (r, super w) = QListWidgetAddRemove.super_takeItem row (super self)
      /\ emitted w = S (emitted self))
  /\ (let '(r, w) := QListWidgetAddRemove.clear self in
      (r, super w) = QListWidgetAddRemove.super_clear (super self)
      /\ emitted w = S (emitted self))
  /\ forall (l : list item) (n i : nat),
       fst (QListWidgetAddRemove.removeItemAt (Z.of_nat i)
              {| QListWidgetAddRemove.super := l;
                 QListWidgetAddRemove.itemAddedOrRemoved := n |})
       = l !! i.
Proof.
  cbv zeta.
  unfold QListWidgetAddRemove.addItem, QListWidgetAddRemove.addItems,
    QListWidgetAddRemove.removeItemAt, QListWidgetAddRemove.clear.
  destruct (QListWidgetAddRemove.super_addItem x _),
    (QListWidgetAddRemove.super_addItems xs _),
    (QListWidgetAddRemove.super_takeItem row _),
    (QListWidgetAddRemove.super_clear _).
  repeat split.
  intros l n i. cbn. destruct (decide _) as [Hin | Hout]; cbn.
  - now rewrite Nat2Z.id.
  - symmetry. apply lookup_ge_None. lia.
Qed.

(** Rounding to a number of decimals. *)













(** C9 fails for the empty string: it is not [None], and the style is
    cleared. *)
Lemma setColor_claim_empty_string :
  ~ setColor_claim (QColorButton.__init__ true) (Some ""%string).
Proof.
  intros (_ & _ & H). vm_compute in H. discriminate.
Qed.

(** The attributes of the button after [setColor]. *)
Lemma setColor_fields (self : QColorButton.Button) (c : option string) :
  QColorButton._color (QColorButton.setColor c self) = c
  /\ QColorButton.colorChanged (QColorButton.setColor c self)
     = (if decide (c <> QColorButton._color self)
        then S (QColorButton.colorChanged self)
        else QColorButton.colorChanged self)
  /\ QColorButton.styleSheet (QColorButton.setColor c self)
     = (if QColorButton.truthy c
        then ("background-color: " ++ default "" c ++ ";")%string
        else ""%string).
Proof.
  unfold QColorButton.setColor.
  destruct (decide (c <> QColorButton._color self)) as [Hne | Heq]; cbn.
  - destruct (QColorButton.truthy c); cbn; auto.
  - apply dec_stable in Heq. subst c.
    destruct (QColorButton.truthy _); cbn; auto.
Qed.

(** C9 as amended. [setColor(c)] emits [colorChanged] if and only if [c]
    differs from the stored colour (and then once); afterwards [color()]
    returns [c]; the style shows [c] when [c] is a non-empty string and is
    cleared when [c] is [None] or the empty string. *)
Theorem setColor_emits_iff_changed (self : QColorButton.Button) (c : option string) :
  let after := QColorButton.setColor c self in
  ((QColorButton.colorChanged after = S (QColorButton.colorChanged self)
    <-> c <> QColorButton._color self)
   /\ (QColorButton.colorChanged after = QColorButton.colorChanged self
       <-> c = QColorButton._color self))
  /\ QColorButton.color after = c
  /\ QColorButton.styleSheet after
     = match c with
       | Some s => if decide (s = ""%string) then ""%string
                   else ("background-color: " ++ s ++ ";")%string
       | None => ""%string
       end.
Proof.
  cbv zeta. unfold QColorButton.color.
  destruct (setColor_fields self c) as (Hc & Hn & Hs).
  rewrite Hc, Hn, Hs. repeat split.
  - destruct (decide _); [tauto | intros H; exfalso; lia].
  - destruct (decide _); tauto.
  - destruct (decide _) as [Hne | Heq]; [intros H; exfalso; lia | intros _; now apply dec_stable].
  - destruct (decide _); [contradiction | reflexivity].
  - destruct c as [s |]; cbn; [| reflexivity].
    destruct (decide (s = ""%string)) as [-> | Hne]; [reflexivity |].
    rewrite bool_decide_eq_false_2 by assumption. reflexivity.
Qed.

(** ** GenericDialog.setListControl *)

Lemma index_Ok (l : list string) (e : string) (i : nat) :
  index l e = Ok i -> l !! i = Some e.
Proof.
  revert i. induction l as [| x l IH]; intros i; cbn; [discriminate |].
  destruct (decide (x = e)) as [-> | Hne].
  - intros [= <-]. reflexivity.
  - destruct (index l e) as [j | |]; cbn; try discriminate.
    intros [= <-]. cbn. now apply IH.
Qed.

Lemma index_elem (l : list string) (e : string) :
  e ∈ l -> exists i, index l e = Ok i.
Proof.
  induction l as [| x l IH]; cbn.
  - intros H. inversion H.
  - intros H. destruct (decide (x = e)) as [-> | Hne]; [eauto |].
    apply elem_of_cons in H as [-> | H]; [contradiction |].
    destruct (IH H) as [i ->]. cbn. eauto.
Qed.

Lemma index_not_elem (l : list string) (e : string) :
  e ∉ l -> index l e = Raise ValueError.
Proof.
  induction l as [| x l IH]; cbn; [reflexivity |].
  intros H. apply not_elem_of_cons in H as [Hne H].
  destruct (decide (x = e)) as [-> | _]; [contradiction |].
  now rewrite IH.
Qed.

Lemma comprehension_index_all (its l : list string) :
  Forall (fun e => e ∈ its) l ->
  exists idxs, comprehension (index its) l = Ok idxs
               /\ Forall2 (fun e i => index its e = Ok i) l idxs.
Proof.
  induction 1 as [| e l He Hl (idxs & Hc & Hf)]; cbn.
  - exists []. split; [reflexivity | constructor].
  - destruct (index_elem _ _ He) as [i Hi]. rewrite Hi. cbn. rewrite Hc. cbn.
    exists (i :: idxs). split; [reflexivity | now constructor].
Qed.

Lemma comprehension_index_missing (its l : list string) :
  ~ Forall (fun e => e ∈ its) l ->
  exists x, comprehension (index its) l = Raise x.
Proof.
  induction l as [| e l IH]; cbn; intros H.
  - destruct H. constructor.
  - destruct (decide (e ∈ its)) as [He | He].
    + destruct (index_elem _ _ He) as [i ->]. cbn.
      destruct IH as [x ->]; [| cbn; eauto].
      intros Hl. apply H. now constructor.
    + rewrite index_not_elem by assumption. cbn. eauto.
Qed.

Lemma mark_items (checked : bool) (idxs : list nat) (c : GenericDialog.Control) :
  GenericDialog.items (GenericDialog.mark checked idxs c) = GenericDialog.items c.
Proof.
  revert c. induction idxs as [| i idxs IH]; intros c; cbn; [reflexivity |].
  rewrite IH. now destruct checked.
Qed.

Lemma mark_selected (checked : bool) (idxs : list nat) (c : GenericDialog.Control) (j : nat) :
  j ∈ GenericDialog.selected (GenericDialog.mark checked idxs c)
  <-> (if checked then (j ∈ idxs) \/ (j ∈ GenericDialog.selected c)
       else (j ∉ idxs) /\ (j ∈ GenericDialog.selected c)).
Proof.
  revert c. induction idxs as [| i idxs IH]; intros c; cbn.
  - destruct checked; rewrite elem_of_nil; tauto.
  - rewrite IH. destruct checked; cbn.
    + rewrite elem_of_cons, elem_of_union, elem_of_singleton. tauto.
    + rewrite not_elem_of_cons, elem_of_difference, elem_of_singleton. tauto.
Qed.

(** C10. [setListControl] returns without an exception.  When every
    element of the list is among the control's items, the position of
    each element (its first occurrence) is selected if [checked] and
    deselected otherwise, and no other position changes; when an element
    is missing, the control is left as it was. *)
Theorem setListControl_atomic (control : GenericDialog.Control)
    (l : list string) (checked : bool) :
  (exists c, GenericDialog.setListControl control l checked = Ok c)
  /\ (Forall (fun e => e ∈ GenericDialog.items control) l ->
      exists c, GenericDialog.setListControl control l checked = Ok c
        /\ GenericDialog.items c = GenericDialog.items control
        /\ (forall e, e ∈ l ->
              exists i, index (GenericDialog.items control) e = Ok i
                /\ GenericDialog.items control !! i = Some e
                /\ (i ∈ GenericDialog.selected c <-> checked = true))
        /\ (forall j, (forall e, e ∈ l -> index (GenericDialog.items control) e <> Ok j) ->
              (j ∈ GenericDialog.selected c <-> j ∈ GenericDialog.selected control)))
  /\ (~ Forall (fun e => e ∈ GenericDialog.items control) l ->
      GenericDialog.setListControl control l checked = Ok control).
Proof.
  assert (Hall : Forall (fun e => e ∈ GenericDialog.items control) l ->
      exists idxs, GenericDialog.setListControl control l checked
                   = Ok (GenericDialog.mark checked idxs control)
        /\ Forall2 (fun e i => index (GenericDialog.items control) e = Ok i) l idxs).
  { intros H. destruct (comprehension_index_all _ _ H) as (idxs & Hc & Hf).
    exists idxs. unfold GenericDialog.setListControl, GenericDialog.GetItems.
    now rewrite Hc. }
  assert (Hmiss : ~ Forall (fun e => e ∈ GenericDialog.items control) l ->
      GenericDialog.setListControl control l checked = Ok control).
  { intros H. destruct (comprehension_index_missing _ _ H) as (x & Hc).
    unfold GenericDialog.setListControl, GenericDialog.GetItems.
    now rewrite Hc. }
  split; [| split]; [| | exact Hmiss].
  - destruct (decide (Forall (fun e => e ∈ GenericDialog.items control) l)) as [H | H].
    + destruct (Hall H) as (idxs & -> & _). eauto.
    + rewrite (Hmiss H). eauto.
  - intros H. destruct (Hall H) as (idxs & -> & Hf). eexists. split; [reflexivity |].
    split; [apply mark_items |]. split.
    + intros e He.
      destruct (proj1 (list_elem_of_lookup l e) He) as [k Hk].
      destruct (Forall2_lookup_l _ _ _ _ _ Hf Hk) as (i & Hi & Hidx).
      exists i. split; [exact Hidx |]. split; [now apply index_Ok |].
      rewrite mark_selected.
      assert (i ∈ idxs) by (apply list_elem_of_lookup; eauto).
      destruct checked; intuition congruence.
    + intros j Hj. rewrite mark_selected.
      assert (j ∉ idxs).
      { intros Hin. apply list_elem_of_lookup in Hin as [k Hk].
        destruct (Forall2_lookup_r _ _ _ _ _ Hf Hk) as (e & He & Hidx).
        apply (Hj e); [apply list_elem_of_lookup; eauto | exact Hidx]. }
      destruct checked; tauto.
Qed.

Lemma setListControl_atomic_witness :
  exists c,
    GenericDialog.setListControl
      {| GenericDialog.items := ["a"; "b"; "c"]%string; GenericDialog.selected := ∅ |}
      ["c"; "a"]%string true = Ok c
    /\ GenericDialog.setListControl
         {| GenericDialog.items := ["a"; "b"; "c"]%string; GenericDialog.selected := ∅ |}
         ["c"; "z"]%string true
       = Ok {| GenericDialog.items := ["a"; "b"; "c"]%string; GenericDialog.selected := ∅ |}.
Proof.
  pose proof (setListControl_atomic
    {| GenericDialog.items := ["a"; "b"; "c"]%string; GenericDialog.selected := ∅ |}
    ["c"; "a"]%string true) as (_ & Hall & _).
  pose proof (setListControl_atomic
    {| GenericDialog.items := ["a"; "b"; "c"]%string; GenericDialog.selected := ∅ |}
    ["c"; "z"]%string true) as (_ & _ & Hmiss).
  destruct Hall as (c & Hc & _).
  - cbn. repeat constructor.
  - exists c. split; [exact Hc |]. apply Hmiss.
    cbn. intros H. apply Forall_cons in H as [_ H]. apply Forall_cons in H as [H _].
    revert H. vm_compute. intros H. 
    repeat (apply elem_of_cons in H as [H | H]; [discriminate |]). inversion H.
Defined.

(** ** The export dialog with the toolkit's spin boxes *)

Lemma Ok_Qc_intro (r : res Qc) (b : Qc) :
  match r with Ok a => Qeq_bool a b | _ => false end = true -> r = Ok b.
Proof.
  destruct r as [a | |]; try discriminate. intros H. f_equal. now apply Qc_decide_eq.
Qed.

(** C1 (the code departs from it).  The dialog constructed by default,
    800 x 600 pixels at 300 dpi, shows 6.77 x 5.08 cm, within a pixel of
    the invariant.  The user types 10 into the print height.  10 cm at
    300 dpi are 1181.103 pixels, but the pixel height is still 600 when
    the handler has returned, and the pixel width has become 799: in
    [update_image_dimensions] the write of the width runs the slot
    [changed_image_dimensions], which puts the displayed height back into
    [_h] before [height.setValue(self._h)] is reached. *)
Theorem print_height_edit_loses_pixel_height :
  exists d0 d,
    @edited rounding 800 600 [] = Ok d0
    /\ consistent_within 1 d0
    /\ @user rounding 8 (EditHeightP (Q2Qc 10)) d0 = Ok d
    /\ (print_units d = "cm"%string /\ resolution_units d = "dpi"%string
        /\ dsb_value (resolution d) = Q2Qc 300)
    /\ dsb_value (height_p d) = Q2Qc 10
    /\ returns (get_pixel_size d (dsb_value (height_p d)) (print_units d)
                  (dsb_value (resolution d)) (resolution_units d)) 1181.103
    /\ sb_value (height d) = Q2Qc 600
    /\ sb_value (width d) = Q2Qc 799
    /\ ~ consistent_within (Q2Qc 500) d.
Proof.
  eexists. eexists. split; [vm_compute; reflexivity |].
  split.
  { eexists. eexists. split; [vm_compute; reflexivity |].
    split; [vm_compute; reflexivity |].
    repeat split; vm_compute; discriminate. }
  split; [vm_compute; reflexivity |].
  split; [repeat split; try reflexivity; apply Qc_decide_eq; vm_compute; reflexivity |].
  split; [apply Qc_decide_eq; vm_compute; reflexivity |].
  split; [apply returns_intro; vm_compute; reflexivity |].
  split; [apply Qc_decide_eq; vm_compute; reflexivity |].
  split; [apply Qc_decide_eq; vm_compute; reflexivity |].
  intros (w & h & _ & Hh & _ & Hlo & _).
  vm_compute in Hh. injection Hh as <-. vm_compute in Hlo. apply Hlo. reflexivity.
Qed.

(** C4 (the code departs from it).  On the dialog constructed by default
    (6.77 x 5.08 cm, 800 x 600 pixels, 300 dpi):
    selecting the print unit m and then mm ends with a print size of
    100 x 100 mm, where it was 67.7 x 50.8 mm, and with 1181 x 1181
    pixels: [changed_print_units] gives the print fields the decimals and
    the range of the new unit before it converts their values, so that
    0.0677 m is first rounded and raised to 0.1, the least length of the
    mm fields;
    selecting the resolution unit px/mm ends with 31 x 23 pixels and a
    print size of 0.27 x 0.2 cm: the write of the converted resolution
    runs [changed_print_resolution], which rescales the print sizes, and
    the pixel sizes follow them. *)
Theorem unit_selection_changes_sizes :
  exists d0,
    @edited rounding 800 600 [] = Ok d0
    /\ (returns (in_metres d0 (dsb_value (width_p d0))) 0.0677
        /\ returns (in_metres d0 (dsb_value (height_p d0))) 0.0508
        /\ sb_value (width d0) = Q2Qc 800 /\ sb_value (height d0) = Q2Qc 600
        /\ returns (get_dots_per_meter d0) 11811.03)
    /\ (exists d1 d2,
          @user rounding 8 (SelectPrintUnits "m") d0 = Ok d1
          /\ @user rounding 8 (SelectPrintUnits "mm") d1 = Ok d2
          /\ returns (in_metres d2 (dsb_value (width_p d2))) 0.1
          /\ returns (in_metres d2 (dsb_value (height_p d2))) 0.1
          /\ sb_value (width d2) = Q2Qc 1181 /\ sb_value (height d2) = Q2Qc 1181)
    /\ (exists d1,
          @user rounding 8 (SelectResolutionUnits "px/mm") d0 = Ok d1
          /\ returns (get_dots_per_meter d1) 11810
          /\ returns (in_metres d1 (dsb_value (width_p d1))) 0.0027
          /\ returns (in_metres d1 (dsb_value (height_p d1))) 0.002
          /\ sb_value (width d1) = Q2Qc 31 /\ sb_value (height d1) = Q2Qc 23).
Proof.
  eexists. split; [vm_compute; reflexivity |].
  split.
  { repeat split; first [ apply returns_intro; vm_compute; reflexivity
                        | apply Qc_decide_eq; vm_compute; reflexivity ]. }
  split.
  - eexists. eexists. split; [vm_compute; reflexivity |].
    split; [vm_compute; reflexivity |].
    repeat split; first [ apply returns_intro; vm_compute; reflexivity
                        | apply Qc_decide_eq; vm_compute; reflexivity ].
  - eexists. split; [vm_compute; reflexivity |].
    repeat split; first [ apply returns_intro; vm_compute; reflexivity
                        | apply Qc_decide_eq; vm_compute; reflexivity ].
Qed.

(** C3 (the code departs from it).  On the dialog constructed with the
    size 610 x 600 the user types 5.02 into the print height and then 700
    into the pixel width.  The first edit leaves the pixel height at 600:
    the slot run for the changed pixel width puts the old height back into
    [_h] before the height is written.  In the cascade of the second edit
    the slot run for the first print field resets [_updating], so that the
    write to the second print field runs [update_image_dimensions]; the
    print height becomes 5.08 again.  This holds whether a pixel box
    truncates or rounds the float it is given. *)
Theorem guard_reset_by_nested_slot :
  @guard_fails rounding /\ @guard_fails nearest.
Proof.
  split.
  - eexists. eexists. split; [vm_compute; reflexivity |].
    split; [vm_compute; reflexivity |].
    split; [split; apply Qc_decide_eq; vm_compute; reflexivity |].
    split; [vm_compute; reflexivity |].
    apply Qc_decide_eq; vm_compute; reflexivity.
  - eexists. eexists. split; [vm_compute; reflexivity |].
    split; [vm_compute; reflexivity |].
    split; [split; apply Qc_decide_eq; vm_compute; reflexivity |].
    split; [vm_compute; reflexivity |].
    apply Qc_decide_eq; vm_compute; reflexivity.
Qed.

(** ** The handlers, step by step *)

Lemma getitem_print_p (u : print_unit) :
  exists p, getitem print_p (print_unit_name u) = Ok p.
Proof. destruct u; eexists; reflexivity. Qed.

Lemma emit_S {tk : Toolkit} (n : nat) (sig : signal) (self : Dialog) :
  emit (S n) sig self = slot (emit n) sig self.
Proof. reflexivity. Qed.

Lemma Qcdiv_nonzero (a b : Qc) : a <> 0 -> b <> 0 -> a / b <> 0.
Proof.
  intros Ha Hb E. apply Ha.
  replace a with (a / b * b) by (field; assumption).
  rewrite E. ring.
Qed.

Lemma get_dots_per_meter_eq (self : Dialog) (ru : resolution_unit) :
  resolution_units self = resolution_unit_name ru ->
  get_dots_per_meter self = Ok (dsb_value (resolution self) * per_metre ru).
Proof.
  intros H. unfold get_dots_per_meter. rewrite H, getitem_resolution_u. reflexivity.
Qed.

(** The arithmetic and the dicts stay folded during a run; the field
    updates are unfolded at once, so that a dialog is always a record of
    its fields. *)
#[local] Arguments Qcmult : simpl never.
#[local] Arguments Qcdiv : simpl never.
#[local] Arguments Qcplus : simpl never.
#[local] Arguments Qcinv : simpl never.
#[local] Arguments Q2Qc : simpl never.
#[local] Arguments getitem : simpl never.
#[local] Arguments truediv : simpl never.
#[local] Arguments bool_decide : simpl never.
#[local] Arguments print_unit_name : simpl never.
#[local] Arguments resolution_unit_name : simpl never.
#[local] Arguments print_u : simpl never.
#[local] Arguments resolution_u : simpl never.
#[local] Arguments print_p : simpl never.
#[local] Arguments emit : simpl never.
#[local] Arguments get_dots_per_meter : simpl never.
#[local] Arguments set__w _ _ /.
#[local] Arguments set__h _ _ /.
#[local] Arguments set__updating _ _ /.
#[local] Arguments set_width _ _ /.
#[local] Arguments set_height _ _ /.
#[local] Arguments set_width_p _ _ /.
#[local] Arguments set_height_p _ _ /.
#[local] Arguments set_print_units _ _ /.
#[local] Arguments set_resolution _ _ /.
#[local] Arguments set_resolution_units _ _ /.
#[local] Arguments set__current_dimension _ _ /.
#[local] Arguments set__current_resolution _ _ /.
#[local] Arguments set__current_resolution_units _ _ /.
#[local] Arguments record_call _ _ /.

Ltac nonzero ::=
  repeat first [ apply Qcmult_nonzero | apply Qcdiv_nonzero ];
  first [ assumption
        | apply factor_nonzero
        | apply per_metre_nonzero
        | apply Qc_pos_nonzero; assumption
        | apply Qc_pos_nonzero; reflexivity
        | discriminate ].

(** * Further properties *)

(** ** widgets.py: the file and folder line edits *)

(** X1. [setText(t)] ends with [text()] and the line edit both at [t], and
    the two reciprocal connections stop: [textChanged] is emitted once
    when the line edit already showed [t] and twice otherwise.  Typing [t]
    into the line edit emits once; a cancelled file dialog changes
    nothing. *)
Theorem QFileOpenLineEdit_setText_in_sync (n : nat) (t : string)
    (self : QFileOpenLineEdit.Widget) :
  let shown := QFileOpenLineEdit.lineedit self in
  let emitted := QFileOpenLineEdit.textChanged self in
  QFileOpenLineEdit.setText (S (S n)) t self
  = Ok {| QFileOpenLineEdit._text := Some t;
          QFileOpenLineEdit.lineedit := t;
          QFileOpenLineEdit.textChanged :=
            emitted ++ (if decide (shown = t) then [t] else [t; t]) |}
  /\ (shown <> t ->
      QFileOpenLineEdit.typed (S n) t self
      = Ok {| QFileOpenLineEdit._text := Some t;
              QFileOpenLineEdit.lineedit := t;
              QFileOpenLineEdit.textChanged := emitted ++ [t] |})
  /\ QFileOpenLineEdit.onSelectPath n "" self = Ok self.
Proof.
  cbv zeta. split; [| split].
  - cbn [QFileOpenLineEdit.setText]. cbn.
    destruct (decide (QFileOpenLineEdit.lineedit self = t)) as [-> | Hne]; [reflexivity |].
    destruct (decide (t = t)) as [_ | Hn]; [| contradiction].
    now rewrite <- app_assoc.
  - intros Hne. unfold QFileOpenLineEdit.typed.
    destruct (decide (QFileOpenLineEdit.lineedit self = t)) as [E | _]; [contradiction |].
    cbn. destruct (decide (t = t)) as [_ | Hn]; [reflexivity | contradiction].
  - reflexivity.
Qed.

Lemma QFileOpenLineEdit_setText_in_sync_witness :
  QFileOpenLineEdit.typed 1 "a.txt" QFileOpenLineEdit.__init__
  = Ok {| QFileOpenLineEdit._text := Some "a.txt"%string;
          QFileOpenLineEdit.lineedit := "a.txt";
          QFileOpenLineEdit.textChanged := ["a.txt"%string] |}.
Proof.
  apply (QFileOpenLineEdit_setText_in_sync 0 "a.txt" QFileOpenLineEdit.__init__).
  discriminate.
Defined.

(** ** widgets.py: the list widget on the list of its rows *)

(** X2. Adding an item and removing the last row gives the item back
    and the rows as they were; the signal was emitted twice. *)
Theorem QListWidgetAddRemove_add_remove {item : Type} (l : list item) (x : item) (k : nat) :
  let w := {| QListWidgetAddRemove.super := l;
              QListWidgetAddRemove.itemAddedOrRemoved := k |} in
  QListWidgetAddRemove.removeItemAt (Z.of_nat (length l))
    (snd (QListWidgetAddRemove.addItem x w))
  = (Some x, {| QListWidgetAddRemove.super := l;
                QListWidgetAddRemove.itemAddedOrRemoved := S (S k) |}).
Proof.
  cbv zeta. unfold QListWidgetAddRemove.removeItemAt, QListWidgetAddRemove.addItem. cbn.
  rewrite length_app. cbn.
  destruct (decide _) as [_ | Hn]; [| lia].
  rewrite Nat2Z.id. unfold QListWidgetAddRemove.emit. cbn. f_equal.
  - rewrite lookup_app_r by lia. now rewrite Nat.sub_diag.
  - f_equal. rewrite delete_middle. apply app_nil_r.
Qed.

(** X3. The signal is emitted also when nothing was added or removed:
    for a row out of range [removeItemAt] returns [None] and keeps the
    rows, adding no items and clearing an empty list keep the rows, and
    each of these calls still emits once. *)
Theorem QListWidgetAddRemove_emits_without_change {item : Type} (l : list item)
    (k : nat) (row : Z) :
  let w := {| QListWidgetAddRemove.super := l;
              QListWidgetAddRemove.itemAddedOrRemoved := k |} in
  let w' := {| QListWidgetAddRemove.super := l;
               QListWidgetAddRemove.itemAddedOrRemoved := S k |} in
  ((row < 0 \/ Z.of_nat (length l) <= row)%Z ->
   QListWidgetAddRemove.removeItemAt row w = (None, w'))
  /\ QListWidgetAddRemove.addItems [] w = (tt, w')
  /\ (l = [] -> QListWidgetAddRemove.clear w = (tt, w')).
Proof.
  cbv zeta. split; [| split].
  - intros Hrow. unfold QListWidgetAddRemove.removeItemAt. cbn.
    destruct (decide _) as [Hin | _]; [lia | reflexivity].
  - unfold QListWidgetAddRemove.addItems, QListWidgetAddRemove.emit. cbn.
    now rewrite app_nil_r.
  - intros ->. reflexivity.
Qed.

Lemma QListWidgetAddRemove_emits_without_change_witness :
  QListWidgetAddRemove.removeItemAt 5
    {| QListWidgetAddRemove.super := ["a"; "b"]%string;
       QListWidgetAddRemove.itemAddedOrRemoved := 0 |}
  = (None, {| QListWidgetAddRemove.super := ["a"; "b"]%string;
              QListWidgetAddRemove.itemAddedOrRemoved := 1 |})
  /\ QListWidgetAddRemove.clear
       {| QListWidgetAddRemove.super := @nil string;
          QListWidgetAddRemove.itemAddedOrRemoved := 0 |}
     = (tt, {| QListWidgetAddRemove.super := @nil string;
               QListWidgetAddRemove.itemAddedOrRemoved := 1 |}).
Proof.
  split.
  - apply (QListWidgetAddRemove_emits_without_change ["a"; "b"]%string 0 5).
    right. cbn. lia.
  - apply (QListWidgetAddRemove_emits_without_change (@nil string) 0 0). reflexivity.
Defined.

(** ** widgets.py: the colour button *)

(** X4. Setting the same colour again changes nothing: the second call
    emits no signal and leaves the style as it is. *)
Theorem setColor_idempotent (self : QColorButton.Button) (c : option string) :
  QColorButton.setColor c (QColorButton.setColor c self) = QColorButton.setColor c self.
Proof.
  destruct self as [c0 en st k]. unfold QColorButton.setColor. cbn.
  destruct (decide (c <> c0)) as [Hne | Heq]; cbn.
  - destruct (QColorButton.truthy c) eqn:Ht; cbn;
      (destruct (decide (c <> c)) as [Hn | _]; [contradiction |]); cbn;
      rewrite Ht; reflexivity.
  - apply dec_stable in Heq. subst c0.
    destruct (QColorButton.truthy c) eqn:Ht; cbn;
      (destruct (decide (c <> c)) as [Hn | _]; [contradiction |]); cbn;
      rewrite Ht; reflexivity.
Qed.

(** X5. A right click on a button with the reset enabled sets the colour
    to [None] and clears the style, and emits [colorChanged] only if a
    colour was set.  With the reset disabled a right click changes
    nothing, and so does a left click whose colour dialog is cancelled. *)
Theorem mousePressEvent_resets (self : QColorButton.Button) :
  (QColorButton.is_reset_enabled self = true ->
   let after := QColorButton.mousePressEvent QColorButton.RightButton None self in
   QColorButton.color after = None
   /\ QColorButton.styleSheet after = ""%string
   /\ QColorButton.colorChanged after
      = (if QColorButton._color self is Some _ then S (QColorButton.colorChanged self)
         else QColorButton.colorChanged self))
  /\ (QColorButton.is_reset_enabled self = false ->
      forall picked,
        QColorButton.mousePressEvent QColorButton.RightButton picked self = self)
  /\ (forall button, button <> QColorButton.RightButton ->
        QColorButton.mousePressEvent button None self = self).
Proof.
  destruct self as [c0 en st k]. cbn. split; [| split].
  - intros ->. unfold QColorButton.mousePressEvent. cbn.
    destruct (setColor_fields
                {| QColorButton._color := c0; QColorButton.is_reset_enabled := true;
                   QColorButton.styleSheet := st; QColorButton.colorChanged := k |} None)
      as (Hc & Hn & Hs).
    unfold QColorButton.color. rewrite Hc, Hn, Hs. cbn.
    repeat split. destruct c0 as [s |]; cbn.
    + destruct (decide _) as [_ | Hn']; [reflexivity | exfalso; apply Hn'; discriminate].
    + destruct (decide _) as [Hn' | _]; [contradiction | reflexivity].
  - intros -> picked. reflexivity.
  - intros button Hb. unfold QColorButton.mousePressEvent. cbn.
    destruct button; try contradiction; rewrite andb_false_r; reflexivity.
Qed.

Lemma mousePressEvent_resets_witness :
  QColorButton.color
    (QColorButton.mousePressEvent QColorButton.RightButton None
       (QColorButton.setColor (Some "#ff0000"%string) (QColorButton.__init__ true)))
  = None.
Proof.
  apply (mousePressEvent_resets
           (QColorButton.setColor (Some "#ff0000"%string) (QColorButton.__init__ true))).
  reflexivity.
Defined.

(** ** widgets.py: the nullable spin box *)

(** X6. The number survives a phase as [None]: [setValue(None)] leaves
    the number of the spin box where it is, and the context-menu event on
    a box that is [None] gives [value()] that number again and enables the
    box, provided the box can hold the number as it is.  Every
    [setValue(None)] emits [valueChanged] with the dummy -65535, also when
    the box is [None] already. *)
Theorem QNoneDoubleSpinBox_number_survives_None {tk : Toolkit}
    (self : QNoneDoubleSpinBox.SpinBox) :
  let box := QNoneDoubleSpinBox.base self in
  let none := QNoneDoubleSpinBox.setValue None self in
  double_store (dsb_decimals box) (dsb_minimum box) (dsb_maximum box) (dsb_value box)
  = dsb_value box ->
  dsb_value (QNoneDoubleSpinBox.base none) = dsb_value box
  /\ QNoneDoubleSpinBox.value (QNoneDoubleSpinBox.contextMenuEvent none)
     = Some (dsb_value box)
  /\ dsb_enabled (QNoneDoubleSpinBox.base (QNoneDoubleSpinBox.contextMenuEvent none)) = true
  /\ QNoneDoubleSpinBox.valueChanged (QNoneDoubleSpinBox.contextMenuEvent none)
     = QNoneDoubleSpinBox.valueChanged self ++ [Q2Qc (-65535)]
  /\ QNoneDoubleSpinBox.valueChanged (QNoneDoubleSpinBox.setValue None none)
     = QNoneDoubleSpinBox.valueChanged self ++ [Q2Qc (-65535); Q2Qc (-65535)].
Proof.
  cbv zeta. intros Hfix. destruct self as [[v dec st lo hi en] isn log]. cbn in Hfix.
  unfold QNoneDoubleSpinBox.contextMenuEvent, QNoneDoubleSpinBox.value. cbn.
  rewrite Hfix. rewrite bool_decide_eq_false_2 by (intros Hn; now apply Hn).
  cbn. rewrite <- app_assoc. repeat split; reflexivity.
Qed.

Lemma QNoneDoubleSpinBox_number_survives_None_witness :
  QNoneDoubleSpinBox.value
    (@QNoneDoubleSpinBox.contextMenuEvent rounding
       (@QNoneDoubleSpinBox.setValue rounding None
          (@QNoneDoubleSpinBox.setValue rounding (Some (Q2Qc 12.5))
             QNoneDoubleSpinBox.__init__)))
  = Some (dsb_value (QNoneDoubleSpinBox.base
            (@QNoneDoubleSpinBox.setValue rounding (Some (Q2Qc 12.5))
               QNoneDoubleSpinBox.__init__))).
Proof.
  apply (@QNoneDoubleSpinBox_number_survives_None rounding
           (@QNoneDoubleSpinBox.setValue rounding (Some (Q2Qc 12.5))
              QNoneDoubleSpinBox.__init__)).
  apply Qc_decide_eq. vm_compute. reflexivity.
Defined.

(** ** dialogs.py: setListControl, composed *)

Lemma index_first (l : list string) (e : string) (i j : nat) :
  index l e = Ok i -> l !! j = Some e -> (i <= j)%nat.
Proof.
  revert i j. induction l as [| x l IH]; intros i j; cbn; [discriminate |].
  destruct (decide (x = e)) as [-> | Hne].
  - intros [= <-] _. lia.
  - destruct (index l e) as [k | |] eqn:Hk; cbn; try discriminate.
    intros [= <-]. destruct j as [| j]; cbn.
    + intros [= ->]. contradiction.
    + intros Hj. specialize (IH k j eq_refl Hj). lia.
Qed.

Lemma mark_selected_set (checked : bool) (idxs : list nat) (c : GenericDialog.Control) :
  GenericDialog.selected (GenericDialog.mark checked idxs c)
  = if checked then list_to_set idxs ∪ GenericDialog.selected c
    else GenericDialog.selected c ∖ list_to_set idxs.
Proof.
  apply set_eq. intros j. rewrite mark_selected.
  destruct checked; rewrite ?elem_of_union, ?elem_of_difference, elem_of_list_to_set; tauto.
Qed.

Lemma Control_eq (c c' : GenericDialog.Control) :
  GenericDialog.items c = GenericDialog.items c' ->
  GenericDialog.selected c = GenericDialog.selected c' -> c = c'.
Proof. destruct c, c'. cbn. now intros -> ->. Qed.

Lemma setListControl_all (control : GenericDialog.Control) (l : list string) (checked : bool) :
  Forall (fun e => e ∈ GenericDialog.items control) l ->
  exists idxs,
    Forall2 (fun e i => index (GenericDialog.items control) e = Ok i) l idxs
    /\ GenericDialog.setListControl control l checked
       = Ok (GenericDialog.mark checked idxs control).
Proof.
  intros H. destruct (comprehension_index_all _ _ H) as (idxs & Hc & Hf).
  exists idxs. split; [exact Hf |].
  unfold GenericDialog.setListControl, GenericDialog.GetItems. now rewrite Hc.
Qed.

Lemma Forall2_index_functional (its l : list string) (idxs idxs' : list nat) :
  Forall2 (fun e i => index its e = Ok i) l idxs ->
  Forall2 (fun e i => index its e = Ok i) l idxs' -> idxs = idxs'.
Proof.
  intros H. revert idxs'. induction H as [| e i l idxs He _ IH]; intros idxs' H'.
  - now inversion H'.
  - inversion H' as [| e' i' l' idxs'' He' Hl']; subst.
    rewrite He in He'. injection He' as <-. f_equal. now apply IH.
Qed.

(** X7. Marking is idempotent and selecting then deselecting the same
    list composes as expected: when every element of the list is among
    the items, a second call with the same arguments returns the control
    of the first, and a call with [checked] true followed by one with
    [checked] false leaves selected exactly the positions that were
    selected before and are not the position of an element of the list. *)
Theorem setListControl_composes (control : GenericDialog.Control) (l : list string) :
  Forall (fun e => e ∈ GenericDialog.items control) l ->
  exists c1 c2,
    GenericDialog.setListControl control l true = Ok c1
    /\ GenericDialog.setListControl c1 l true = Ok c1
    /\ GenericDialog.setListControl c1 l false = Ok c2
    /\ GenericDialog.setListControl c2 l false = Ok c2
    /\ GenericDialog.items c2 = GenericDialog.items control
    /\ forall j,
         j ∈ GenericDialog.selected c2
         <-> j ∈ GenericDialog.selected control
             /\ forall e, e ∈ l -> index (GenericDialog.items control) e <> Ok j.
Proof.
  intros Hall.
  destruct (setListControl_all control l true Hall) as (idxs & Hf & H1).
  set (c1 := GenericDialog.mark true idxs control) in *.
  assert (Hi1 : GenericDialog.items c1 = GenericDialog.items control) by apply mark_items.
  assert (Hall1 : Forall (fun e => e ∈ GenericDialog.items c1) l) by now rewrite Hi1.
  destruct (setListControl_all c1 l true Hall1) as (idxs1 & Hf1 & H11).
  destruct (setListControl_all c1 l false Hall1) as (idxs2 & Hf2 & H12).
  rewrite Hi1 in Hf1, Hf2.
  rewrite (Forall2_index_functional _ _ _ _ Hf1 Hf) in H11.
  rewrite (Forall2_index_functional _ _ _ _ Hf2 Hf) in H12.
  set (c2 := GenericDialog.mark false idxs c1) in *.
  assert (Hi2 : GenericDialog.items c2 = GenericDialog.items control)
    by (unfold c2; now rewrite mark_items).
  assert (Hall2 : Forall (fun e => e ∈ GenericDialog.items c2) l) by now rewrite Hi2.
  destruct (setListControl_all c2 l false Hall2) as (idxs3 & Hf3 & H22).
  rewrite Hi2 in Hf3. rewrite (Forall2_index_functional _ _ _ _ Hf3 Hf) in H22.
  exists c1, c2. split; [exact H1 |]. split.
  { rewrite H11. f_equal. apply Control_eq; [now rewrite mark_items |].
    rewrite mark_selected_set. unfold c1. rewrite mark_selected_set. set_solver. }
  split; [exact H12 |]. split.
  { rewrite H22. f_equal. apply Control_eq; [now rewrite mark_items |].
    rewrite mark_selected_set. unfold c2. rewrite mark_selected_set. set_solver. }
  split; [exact Hi2 |].
  intros j. unfold c2. rewrite mark_selected_set. unfold c1. rewrite mark_selected_set.
  rewrite elem_of_difference, elem_of_union, elem_of_list_to_set.
  assert (Hidx : j ∈ idxs <-> exists e, e ∈ l /\ index (GenericDialog.items control) e = Ok j).
  { split.
    - intros Hin. apply list_elem_of_lookup in Hin as [k Hk].
      destruct (Forall2_lookup_r _ _ _ _ _ Hf Hk) as (e & He & Hidx).
      exists e. split; [apply list_elem_of_lookup; eauto | exact Hidx].
    - intros (e & He & Hidx). apply list_elem_of_lookup in He as [k Hk].
      destruct (Forall2_lookup_l _ _ _ _ _ Hf Hk) as (i & Hi & Hidx').
      rewrite Hidx in Hidx'. injection Hidx' as <-.
      apply list_elem_of_lookup. eauto. }
  rewrite Hidx. split.
  - intros [[(e & He & Hi) | Hs] Hn]; [exfalso; apply Hn; eauto |].
    split; [exact Hs |]. intros e He Hi. apply Hn. eauto.
  - intros [Hs Hn]. split; [now right |]. intros (e & He & Hi). now apply (Hn e).
Qed.

Lemma setListControl_composes_witness :
  exists c1 c2,
    GenericDialog.setListControl
      {| GenericDialog.items := ["a"; "b"; "a"]%string; GenericDialog.selected := {[1%nat]} |}
      ["a"]%string true = Ok c1
    /\ GenericDialog.setListControl c1 ["a"]%string true = Ok c1
    /\ GenericDialog.setListControl c1 ["a"]%string false = Ok c2
    /\ GenericDialog.setListControl c2 ["a"]%string false = Ok c2.
Proof.
  destruct (setListControl_composes
              {| GenericDialog.items := ["a"; "b"; "a"]%string;
                 GenericDialog.selected := {[1%nat]} |} ["a"]%string)
    as (c1 & c2 & H1 & H2 & H3 & H4 & _).
  - cbn. repeat constructor.
  - exists c1, c2. auto.
Defined.

(** X8. An item that occurs several times among the items of the control
    is only ever marked at its first position: a call for the one element
    [e] leaves the selection of every other position where [e] occurs as
    it was, and these positions come after the marked one. *)
Theorem setListControl_first_occurrence (control : GenericDialog.Control)
    (e : string) (checked : bool) (i j : nat) :
  index (GenericDialog.items control) e = Ok i ->
  GenericDialog.items control !! j = Some e ->
  j <> i ->
  exists c, GenericDialog.setListControl control [e] checked = Ok c
    /\ (i < j)%nat
    /\ (i ∈ GenericDialog.selected c <-> checked = true)
    /\ (j ∈ GenericDialog.selected c <-> j ∈ GenericDialog.selected control).
Proof.
  intros Hi Hj Hne.
  unfold GenericDialog.setListControl, GenericDialog.GetItems. cbn. rewrite Hi. cbn.
  eexists. split; [reflexivity |].
  pose proof (index_first _ _ _ _ Hi Hj). split; [lia |].
  destruct checked; cbn.
  - rewrite !elem_of_union, !elem_of_singleton. split; [intuition | intuition congruence].
  - rewrite !elem_of_difference, !elem_of_singleton. split; [| intuition].
    split; [intros [_ Hn]; now contradiction Hn | discriminate].
Qed.

Lemma setListControl_first_occurrence_witness :
  exists c,
    GenericDialog.setListControl
      {| GenericDialog.items := ["a"; "b"; "a"]%string; GenericDialog.selected := ∅ |}
      ["a"]%string true = Ok c
    /\ (0 < 2)%nat
    /\ (0%nat ∈ GenericDialog.selected c <-> true = true)
    /\ (2%nat ∈ GenericDialog.selected c <-> 2%nat ∈ (∅ : gset nat)).
Proof.
  apply (setListControl_first_occurrence
           {| GenericDialog.items := ["a"; "b"; "a"]%string; GenericDialog.selected := ∅ |}
           "a" true 0 2); [reflexivity | reflexivity | lia].
Defined.

(** ** dialogs.py: conversions between units *)

Lemma print_unit_names (f : string) :
  (exists pu, f = print_unit_name pu)
  \/ ((forall pu, f <> print_unit_name pu) /\ getitem print_u f = Raise KeyError).
Proof.
  destruct (decide (f = "in"%string)) as [-> | H1]; [left; now exists inch |].
  destruct (decide (f = "mm"%string)) as [-> | H2]; [left; now exists millimetre |].
  destruct (decide (f = "cm"%string)) as [-> | H3]; [left; now exists centimetre |].
  destruct (decide (f = "m"%string)) as [-> | H4]; [left; now exists metre |].
  right. split; [intros [] E; [apply H1 | apply H2 | apply H3 | apply H4]; exact E |].
  unfold getitem.
  replace (print_u !! f) with (@None Qc); [reflexivity |].
  symmetry. unfold print_u. apply not_elem_of_list_to_map_1. cbn.
  rewrite !elem_of_cons, elem_of_nil. intuition congruence.
Qed.

(** X9. [get_converted_measurement] either converts or raises [KeyError]:
    when [f] and [t] are both keys of [print_u] it returns [x] divided by
    the factor of [f] and multiplied by the factor of [t]; when one of
    them is any other name (so for the names of the resolution units,
    which are keys of [resolution_u] only) it raises [KeyError].  No
    number [x] makes the division fail, no factor being zero. *)
Theorem get_converted_measurement_KeyError (self : Dialog) (x : Qc) (f t : string) :
  (exists pf pt,
     f = print_unit_name pf /\ t = print_unit_name pt
     /\ get_converted_measurement self x f t = Ok (x / factor pf * factor pt))
  \/ (((forall pu, f <> print_unit_name pu) \/ (forall pu, t <> print_unit_name pu))
      /\ get_converted_measurement self x f t = Raise KeyError).
Proof.
  destruct (print_unit_names f) as [[pf ->] | [Hf Ef]].
  - destruct (print_unit_names t) as [[pt ->] | [Ht Et]].
    + left. exists pf, pt. split; [reflexivity |]. split; [reflexivity |].
      apply get_converted_measurement_eq.
    + right. split; [now right |]. unfold get_converted_measurement.
      rewrite getitem_print_u, Et. reflexivity.
  - right. split; [now left |]. unfold get_converted_measurement. now rewrite Ef.
Qed.

(** X10. Conversions compose and invert each other: converting from [f]
    to [t] and then from [t] to [u] is converting from [f] to [u];
    converting from a unit to itself gives the value back, and so does
    converting to another unit and back. *)
Theorem get_converted_measurement_composes (self : Dialog) (x : Qc) (f t u : print_unit) :
  (y ← get_converted_measurement self x (print_unit_name f) (print_unit_name t);
   get_converted_measurement self y (print_unit_name t) (print_unit_name u))
  = get_converted_measurement self x (print_unit_name f) (print_unit_name u)
  /\ get_converted_measurement self x (print_unit_name f) (print_unit_name f) = Ok x
  /\ (y ← get_converted_measurement self x (print_unit_name f) (print_unit_name t);
      get_converted_measurement self y (print_unit_name t) (print_unit_name f))
     = Ok x.
Proof.
  rewrite !get_converted_measurement_eq. cbn [mbind res_bind].
  rewrite !get_converted_measurement_eq.
  repeat split; f_equal; field; repeat split; apply factor_nonzero.
Qed.

(** X11. [get_dots_per_inch] returns the displayed resolution divided by
    the per-metre factor of its unit and multiplied by 39.3701.  For the
    unit dpi this is the displayed resolution itself, and it is
    [get_dots_per_meter()] divided by 39.3701. *)
Theorem get_dots_per_inch_eq (self : Dialog) (ru : resolution_unit) :
  resolution_units self = resolution_unit_name ru ->
  get_dots_per_inch self
  = Ok (dsb_value (resolution self) / per_metre ru * Q2Qc 39.3701)
  /\ (ru = dpi ->
      get_dots_per_inch self = Ok (dsb_value (resolution self))
      /\ (m ← get_dots_per_meter self; truediv m (Q2Qc 39.3701))
         = Ok (dsb_value (resolution self))).
Proof.
  intros Hru.
  assert (H : get_dots_per_inch self
              = Ok (dsb_value (resolution self) / per_metre ru * Q2Qc 39.3701)).
  { unfold get_dots_per_inch. rewrite Hru.
    destruct (decide (resolution_unit_name ru = "in"%string)) as [E | _];
      [destruct ru; discriminate |].
    destruct ru; cbn [mbind res_bind];
      [ apply (get_converted_measurement_eq self _ inch inch)
      | apply (get_converted_measurement_eq self _ millimetre inch)
      | apply (get_converted_measurement_eq self _ centimetre inch)
      | apply (get_converted_measurement_eq self _ metre inch) ]. }
  split; [exact H |]. intros ->. split.
  - rewrite H. f_equal. change (per_metre dpi) with (Q2Qc 39.3701).
    field. apply Qc_pos_nonzero. reflexivity.
  - unfold get_dots_per_meter. rewrite Hru.
    rewrite getitem_resolution_u.
    cbn [mbind res_bind mret res_ret].
    rewrite truediv_nonzero by (apply Qc_pos_nonzero; reflexivity).
    f_equal. change (per_metre dpi) with (Q2Qc 39.3701).
    field. apply Qc_pos_nonzero. reflexivity.
Qed.

Lemma get_dots_per_inch_eq_witness :
  get_dots_per_inch (@constructed rounding 800 600)
  = Ok (dsb_value (resolution (@constructed rounding 800 600))).
Proof.
  apply (get_dots_per_inch_eq (@constructed rounding 800 600) dpi);
    [vm_compute |]; reflexivity.
Defined.

(** ** dialogs.py: no handler raises *)

Lemma safely_bind (r : res Dialog) (k : Dialog -> res Dialog) :
  safely r -> (forall d, safe d -> safely (k d)) -> safely (r ≫= k).
Proof. destruct r as [d | e |]; cbn; auto. Qed.

Lemma clamp_positive (lo hi v : Qc) : 0 < lo -> 0 < hi -> 0 < clamp lo hi v.
Proof.
  intros Hlo Hhi. unfold clamp.
  destruct (decide (v < lo)) as [_ | Hv]; [assumption |].
  destruct (decide (hi < v)) as [_ | _]; [assumption |].
  apply Qclt_le_trans with lo; [assumption | now apply Qcnot_lt_le].
Qed.

Lemma rounding_keeps_resolution_positive : keeps_resolution_positive rounding.
Proof. intros v. apply clamp_positive; reflexivity. Qed.

Lemma nearest_keeps_resolution_positive : keeps_resolution_positive nearest.
Proof. intros v. apply clamp_positive; reflexivity. Qed.

Section Safety.
Context {tk : Toolkit} (Hres : keeps_resolution_positive tk).

Lemma get_as_print_size_safe (self : Dialog) (s : Qc) :
  safe self -> exists q, get_as_print_size self s (print_units self) = Ok q.
Proof.
  intros ([pu Hpu] & [ru Hru] & _ & _ & _ & _ & _ & Hpos & _).
  rewrite Hpu. eexists. apply (get_as_print_size_eq self s pu ru Hru).
  now apply Qc_pos_nonzero.
Qed.

Lemma get_pixel_size_safe (self : Dialog) (s : Qc) :
  safe self ->
  exists q, get_pixel_size self s (print_units self) (dsb_value (resolution self))
              (resolution_units self) = Ok q.
Proof.
  intros ([pu Hpu] & [ru Hru] & _). rewrite Hpu, Hru. eexists. apply get_pixel_size_eq.
Qed.

Section Slots.
Variable emit : signal -> Dialog -> res Dialog.
Hypothesis emit_safely : forall sig d, safe d -> safely (emit sig d).

Lemma deliver_safely (c : bool) (sig : signal) (d : Dialog) :
  safe d -> safely (deliver emit c sig d).
Proof. intros Hd. destruct c; cbn; [now apply emit_safely | exact Hd]. Qed.

Lemma width_setValue_safely (v : Qc) (d : Dialog) :
  safe d -> safely (width_setValue emit v d).
Proof. intros Hd. unfold width_setValue. cbn. apply deliver_safely. exact Hd. Qed.

Lemma height_setValue_safely (v : Qc) (d : Dialog) :
  safe d -> safely (height_setValue emit v d).
Proof. intros Hd. unfold height_setValue. cbn. apply deliver_safely. exact Hd. Qed.

Lemma width_p_setValue_safely (v : Qc) (d : Dialog) :
  safe d -> safely (width_p_setValue emit v d).
Proof. intros Hd. unfold width_p_setValue. cbn. apply deliver_safely. exact Hd. Qed.

Lemma height_p_setValue_safely (v : Qc) (d : Dialog) :
  safe d -> safely (height_p_setValue emit v d).
Proof. intros Hd. unfold height_p_setValue. cbn. apply deliver_safely. exact Hd. Qed.

Lemma resolution_setValue_safely (v : Qc) (d : Dialog) :
  safe d -> safely (resolution_setValue emit v d).
Proof.
  intros Hd. unfold resolution_setValue. cbn. apply deliver_safely.
  destruct Hd as (H1 & H2 & H3 & H4 & Hdec & Hlo & Hhi & Hpos & Hcur).
  repeat split; try assumption. cbn. rewrite Hdec, Hlo, Hhi. apply Hres.
Qed.

Lemma width_p_configure_safely (p : nat * Qc * Qc * Qc) (d : Dialog) :
  safe d -> safely (width_p_configure emit p d).
Proof.
  intros Hd. destruct p as [[[dec st] lo] hi]. unfold width_p_configure. cbn -[mbind].
  apply safely_bind; [apply deliver_safely; exact Hd |].
  intros d1 Hd1. cbn. apply deliver_safely. exact Hd1.
Qed.

Lemma height_p_configure_safely (p : nat * Qc * Qc * Qc) (d : Dialog) :
  safe d -> safely (height_p_configure emit p d).
Proof.
  intros Hd. destruct p as [[[dec st] lo] hi]. unfold height_p_configure. cbn -[mbind].
  apply safely_bind; [apply deliver_safely; exact Hd |].
  intros d1 Hd1. cbn. apply deliver_safely. exact Hd1.
Qed.

Lemma update_print_dimensions_safely (d : Dialog) :
  safe d -> safely (update_print_dimensions emit d).
Proof.
  intros Hd. unfold update_print_dimensions.
  set (d1 := set__h _ (set__w _ (record_call _ d))).
  assert (Hd1 : safe d1) by exact Hd.
  destruct (get_as_print_size_safe d1 (_w d1) Hd1) as [w_p ->].
  destruct (get_as_print_size_safe d1 (_h d1) Hd1) as [h_p ->].
  cbn [mbind res_bind].
  apply (safely_bind (width_p_setValue emit w_p d1));
    [now apply width_p_setValue_safely |].
  intros d2 Hd2. now apply height_p_setValue_safely.
Qed.

Lemma update_image_dimensions_safely (d : Dialog) :
  safe d -> safely (update_image_dimensions emit d).
Proof.
  intros Hd. unfold update_image_dimensions.
  set (d1 := record_call _ d).
  assert (Hd1 : safe d1) by exact Hd.
  destruct (get_pixel_size_safe d1 (dsb_value (width_p d1)) Hd1) as [w Hw].
  destruct (get_pixel_size_safe d1 (dsb_value (height_p d1)) Hd1) as [h Hh].
  unfold get_pixel_size in *. rewrite Hw. cbn [mbind res_bind]. rewrite Hh.
  cbn [mbind res_bind].
  apply (safely_bind (width_setValue emit _ _));
    [apply width_setValue_safely; exact Hd |].
  intros d2 Hd2. now apply height_setValue_safely.
Qed.

Lemma changed_image_dimensions_safely (d : Dialog) :
  safe d -> safely (changed_image_dimensions emit d).
Proof.
  intros Hd. unfold changed_image_dimensions.
  apply safely_bind.
  - destruct (negb (_updating d)); [| exact Hd].
    apply update_print_dimensions_safely. exact Hd.
  - intros d1 Hd1. exact Hd1.
Qed.

Lemma changed_print_dimensions_safely (d : Dialog) :
  safe d -> safely (changed_print_dimensions emit d).
Proof.
  intros Hd. unfold changed_print_dimensions.
  apply safely_bind.
  - destruct (negb (_updating d)); [| exact Hd].
    apply update_image_dimensions_safely. exact Hd.
  - intros d1 Hd1. exact Hd1.
Qed.

Lemma changed_print_resolution_safely (d : Dialog) :
  safe d -> safely (changed_print_resolution emit d).
Proof.
  intros Hd. unfold changed_print_resolution.
  rewrite truediv_nonzero by (apply Qc_pos_nonzero, Hd). cbn [mbind res_bind].
  apply safely_bind; [now apply width_p_setValue_safely |].
  intros d1 Hd1.
  rewrite truediv_nonzero by (apply Qc_pos_nonzero, Hd1). cbn [mbind res_bind].
  apply safely_bind; [now apply height_p_setValue_safely |].
  intros d2 Hd2.
  destruct Hd2 as (H1 & H2 & H3 & H4 & Hdec & Hlo & Hhi & Hpos & Hcur).
  repeat split; assumption.
Qed.

Lemma changed_print_units_safely (d : Dialog) :
  safe d -> safely (changed_print_units emit d).
Proof.
  intros Hd. unfold changed_print_units.
  destruct Hd as ([pu Hpu] & Hd). rewrite Hpu.
  destruct (getitem_print_p pu) as [p ->]. cbn [mbind res_bind].
  assert (Hd0 : safe d) by (split; [now exists pu | exact Hd]).
  apply safely_bind; [now apply height_p_configure_safely |].
  intros d1 Hd1. apply safely_bind; [now apply width_p_configure_safely |].
  intros d2 Hd2. apply safely_bind.
  - destruct (decide (print_unit_name pu <> _current_dimension d2)) as [_ | _];
      [| exact Hd2].
    destruct Hd2 as (H1 & H2 & [pc Hpc] & Hd2). rewrite Hpc.
    rewrite get_converted_measurement_eq. cbn [mbind res_bind].
    assert (Hd2' : safe d2) by (split; [exact H1 | split; [exact H2 | split; [now exists pc | exact Hd2]]]).
    apply safely_bind; [now apply width_p_setValue_safely |].
    intros d3 Hd3. destruct Hd3 as (H1' & H2' & [pc' Hpc'] & Hd3). rewrite Hpc'.
    rewrite get_converted_measurement_eq. cbn [mbind res_bind].
    apply height_p_setValue_safely.
    split; [exact H1' | split; [exact H2' | split; [now exists pc' | exact Hd3]]].
  - intros d3 (H1 & H2 & H3 & Hd3).
    split; [exact H1 | split; [exact H2 | split; [now exists pu | exact Hd3]]].
Qed.

Lemma changed_resolution_units_safely (d : Dialog) :
  safe d -> safely (changed_resolution_units emit d).
Proof.
  intros Hd. unfold changed_resolution_units.
  destruct Hd as (H1 & [ru Hru] & H3 & [rc Hrc] & Hd).
  rewrite Hrc, Hru, !getitem_resolution_u. cbn [mbind res_bind].
  rewrite truediv_nonzero by apply per_metre_nonzero. cbn [mbind res_bind].
  assert (Hd0 : safe d).
  { split; [exact H1 |]. split; [now exists ru |]. split; [exact H3 |].
    split; [now exists rc | exact Hd]. }
  apply safely_bind; [now apply resolution_setValue_safely |].
  intros d1 (H1' & H2' & H3' & H4' & Hd1).
  split; [exact H1' |]. split; [exact H2' |]. split; [exact H3' |].
  split; [now exists ru | exact Hd1].
Qed.

Lemma slot_safely (sig : signal) (d : Dialog) : safe d -> safely (slot emit sig d).
Proof.
  intros Hd. destruct sig; cbn [slot].
  - now apply changed_image_dimensions_safely.
  - now apply changed_image_dimensions_safely.
  - now apply changed_print_dimensions_safely.
  - now apply changed_print_dimensions_safely.
  - now apply changed_resolution_units_safely.
  - now apply changed_print_resolution_safely.
  - now apply changed_print_units_safely.
Qed.

End Slots.

Lemma emit_safely (n : nat) (sig : signal) (d : Dialog) :
  safe d -> safely (emit n sig d).
Proof.
  revert sig d. induction n as [| n IH]; intros sig d Hd; [exact I |].
  rewrite emit_S. now apply slot_safely.
Qed.

Lemma user_safely (n : nat) (e : edit) (d : Dialog) :
  selectable e -> safe d -> safely (user n e d).
Proof.
  intros He Hd. destruct e as [v | v | v | v | v | u | u]; cbn [user selectable] in *.
  - apply width_setValue_safely; [apply emit_safely | exact Hd].
  - apply height_setValue_safely; [apply emit_safely | exact Hd].
  - apply width_p_setValue_safely; [apply emit_safely | exact Hd].
  - apply height_p_setValue_safely; [apply emit_safely | exact Hd].
  - apply resolution_setValue_safely; [apply emit_safely | exact Hd].
  - apply deliver_safely; [apply emit_safely |].
    destruct He as [pu ->]. destruct Hd as (_ & Hd). split; [now exists pu | exact Hd].
  - apply deliver_safely; [apply emit_safely |].
    destruct He as [ru ->]. destruct Hd as (H1 & _ & Hd).
    split; [exact H1 | split; [now exists ru | exact Hd]].
Qed.

Lemma session_safely (n : nat) (es : list edit) (d : Dialog) :
  Forall selectable es -> safe d -> safely (session n es d).
Proof.
  intros Hes. revert d. induction Hes as [| e es He Hes IH]; intros d Hd; [exact Hd |].
  cbn [session]. apply safely_bind; [now apply user_safely | exact IH].
Qed.

Lemma deliver_unconnected (c : bool) (sig : signal) (d : Dialog) :
  deliver unconnected c sig d = Ok d.
Proof. now destruct c. Qed.

Lemma configures_bind (r : res Dialog) (k : Dialog -> res Dialog) :
  configures r -> (forall d, configured d -> configures (k d)) -> configures (r ≫= k).
Proof. destruct r as [d | e |]; cbn; auto. Qed.

Lemma update_print_dimensions_configures (d : Dialog) :
  configured d -> configures (update_print_dimensions unconnected d).
Proof.
  intros Hd. unfold update_print_dimensions.
  set (d1 := set__h _ (set__w _ (record_call _ d))).
  assert (Hd1 : configured d1) by exact Hd.
  destruct Hd1 as (Hpu & Hru & Hdec & Hlo & Hhi & Hpos).
  change "cm"%string with (print_unit_name centimetre) in Hpu.
  change "dpi"%string with (resolution_unit_name dpi) in Hru.
  rewrite Hpu.
  rewrite !(get_as_print_size_eq d1 _ centimetre dpi Hru)
    by (now apply Qc_pos_nonzero).
  cbn [mbind res_bind].
  unfold width_p_setValue, height_p_setValue. cbn -[mbind].
  rewrite deliver_unconnected. cbn [mbind res_bind]. rewrite deliver_unconnected.
  exact Hd.
Qed.

Lemma configures_safely (r : res Dialog) (k : Dialog -> res Dialog) :
  configures r -> (forall d, configured d -> safely (k d)) -> safely (r ≫= k).
Proof. destruct r as [d | e |]; cbn; auto. Qed.

Lemma init_safely (size : Qc * Qc) (dpm : Qc) (b : bool) :
  safely (__init__ size dpm b).
Proof.
  unfold __init__.
  set (r := fst (QDoubleSpinBox_setDecimals 2 _)).
  assert (Hr : dsb_decimals r = 2%nat /\ dsb_minimum r = 1
               /\ dsb_maximum r = Q2Qc 1000000 /\ 0 < dsb_value r).
  { repeat split. apply Hres. }
  clearbody r. destruct Hr as (Hdec & Hlo & Hhi & Hpos).
  cbv zeta. apply configures_safely.
  { unfold width_setValue. cbn. rewrite deliver_unconnected. now repeat split. }
  intros d1 Hd1. apply configures_safely.
  { unfold height_setValue. cbn. rewrite deliver_unconnected. exact Hd1. }
  intros d2 Hd2. apply configures_safely.
  { now apply update_print_dimensions_configures. }
  intros d3 (Hpu & Hru & Hdec' & Hlo' & Hhi' & Hpos').
  cbn. rewrite Hpu, Hru.
  split; [now exists centimetre |]. split; [now exists dpi |].
  split; [now exists centimetre |]. split; [now exists dpi |].
  repeat split; assumption.
Qed.

End Safety.

Lemma configures_returns (r : res Dialog) (k : Dialog -> res Dialog) :
  configures r -> (forall d, configured d -> exists d', k d = Ok d') ->
  exists d', r ≫= k = Ok d'.
Proof. destruct r as [d | e |]; cbn; intros H Hk; [now apply Hk | contradiction ..]. Qed.

Lemma init_returns {tk : Toolkit} (size : Qc * Qc) (dpm : Qc) (b : bool) :
  keeps_resolution_positive tk -> exists d, __init__ size dpm b = Ok d.
Proof.
  intros Hres. unfold __init__.
  set (r := fst (QDoubleSpinBox_setDecimals 2 _)).
  assert (Hr : dsb_decimals r = 2%nat /\ dsb_minimum r = 1
               /\ dsb_maximum r = Q2Qc 1000000 /\ 0 < dsb_value r).
  { repeat split. apply Hres. }
  clearbody r. destruct Hr as (Hdec & Hlo & Hhi & Hpos).
  cbv zeta. apply configures_returns.
  { unfold width_setValue. cbn. rewrite deliver_unconnected. now repeat split. }
  intros d1 Hd1. apply configures_returns.
  { unfold height_setValue. cbn. rewrite deliver_unconnected. exact Hd1. }
  intros d2 Hd2. apply configures_returns.
  { now apply update_print_dimensions_configures. }
  intros d3 _. eexists. reflexivity.
Qed.

(** X12. The lookups and the divisions of the handlers do not fail.  With
    spin boxes whose resolution field holds positive numbers only (as a
    field with the range from 1 to 1000000 does), the constructor returns
    a dialog, and the constructor followed by any edits of the five
    fields and any selections of units of the two combo boxes never ends
    in [KeyError], [ZeroDivisionError] or [ValueError], at whatever depth
    [n] the nested signals are cut: every unit is found in its table, and
    neither the displayed nor the remembered resolution is zero when it
    divides.  What the toolkit itself may raise for the argument of a
    [setValue] is not part of this. *)
Theorem lookups_and_divisions_do_not_fail {tk : Toolkit} (w h : Q) (dpm : Qc) (b : bool)
    (n : nat) (es : list edit) :
  keeps_resolution_positive tk ->
  Forall selectable es ->
  (exists d0, __init__ (Q2Qc w, Q2Qc h) dpm b = Ok d0)
  /\ forall x,
      (self ← __init__ (Q2Qc w, Q2Qc h) dpm b; session n es self) <> Raise x.
Proof.
  intros Hres Hes. split; [now apply init_returns |]. intros x.
  assert (H : safely (self ← __init__ (Q2Qc w, Q2Qc h) dpm b; session n es self)).
  { apply safely_bind; [now apply init_safely |].
    intros d Hd. now apply session_safely. }
  intros E. rewrite E in H. exact H.
Qed.

Lemma lookups_and_divisions_do_not_fail_witness :
  (exists d0, @__init__ rounding (Q2Qc 800, Q2Qc 600) (Q2Qc 11811) false = Ok d0)
  /\ (self ← @__init__ rounding (Q2Qc 800, Q2Qc 600) (Q2Qc 11811) false;
      @session rounding 8
        [EditResolution 0; SelectResolutionUnits "px/m"; EditWidthP (Q2Qc 7)] self)
     <> Raise ZeroDivisionError.
Proof.
  destruct (@lookups_and_divisions_do_not_fail rounding 800 600 (Q2Qc 11811) false 8
              [EditResolution 0; SelectResolutionUnits "px/m"; EditWidthP (Q2Qc 7)])
    as [H0 H].
  - exact rounding_keeps_resolution_positive.
  - repeat constructor. now exists px_per_m.
  - split; [exact H0 | apply H].
Defined.

(** ** dialogs.py: the constructor *)

Lemma update_print_dimensions_frame {tk : Toolkit} (d d' : Dialog) :
  update_print_dimensions unconnected d = Ok d' ->
  resolution d' = resolution d
  /\ resolution_units d' = resolution_units d
  /\ print_units d' = print_units d.
Proof.
  unfold update_print_dimensions, width_p_setValue, height_p_setValue. cbv zeta.
  set (d1 := set__h _ (set__w _ (record_call _ d))).
  assert (Hd1 : resolution d1 = resolution d /\ resolution_units d1 = resolution_units d
                /\ print_units d1 = print_units d) by (repeat split).
  clearbody d1. intros E.
  destruct (get_as_print_size d1 (_w d1) _) as [w_p | |];
    try discriminate E; cbn [mbind res_bind] in E.
  destruct (get_as_print_size d1 (_h d1) _) as [h_p | |];
    try discriminate E; cbn [mbind res_bind] in E.
  destruct (QDoubleSpinBox_setValue _ _) as [s1 c1].
  rewrite deliver_unconnected in E. cbn [mbind res_bind] in E.
  destruct (QDoubleSpinBox_setValue _ _) as [s2 c2].
  rewrite deliver_unconnected in E. injection E as <-. cbn. exact Hd1.
Qed.

Lemma init_resolution {tk : Toolkit} (size : Qc * Qc) (dpm : Qc) (b : bool) (d : Dialog) :
  __init__ size dpm b = Ok d ->
  resolution d
  = fst (QDoubleSpinBox_setDecimals 2
           (fst (QDoubleSpinBox_setValue (Q2Qc 300)
                   (fst (QDoubleSpinBox_setRange 1 (Q2Qc 1000000) QDoubleSpinBox_new)))))
  /\ resolution_units d = "dpi"%string
  /\ print_units d = "cm"%string.
Proof.
  unfold __init__, width_setValue, height_setValue. cbv zeta.
  set (r := fst (QDoubleSpinBox_setDecimals 2 _)). intros E.
  destruct (QSpinBox_setValue _ _) as [s1 c1].
  rewrite deliver_unconnected in E. cbn [mbind res_bind] in E.
  destruct (QSpinBox_setValue _ _) as [s2 c2].
  rewrite deliver_unconnected in E. cbn [mbind res_bind] in E.
  destruct (update_print_dimensions unconnected _) as [d1 | |] eqn:E';
    try (cbn in E; discriminate E); cbn [mbind res_bind] in E.
  apply update_print_dimensions_frame in E'. cbn in E'.
  destruct E' as (E1 & E2 & E3). injection E as <-. cbn. rewrite E1, E2, E3. repeat split.
Qed.

(** X19. The constructor does not use its argument [dpm]: with the spin
    boxes of the toolkit, whatever size and [dpm] it is given, it returns
    a dialog in centimetres that shows 300 dpi, that is 11811.03 dots per
    metre (and not the 11811 of the default [dpm]). *)
Theorem init_ignores_dpm (w h dpm : Qc) (b : bool) :
  exists d,
    @__init__ rounding (w, h) dpm b = Ok d
    /\ print_units d = "cm"%string
    /\ resolution_units d = "dpi"%string
    /\ dsb_value (resolution d) = Q2Qc 300
    /\ get_dots_per_meter d = Ok (Q2Qc 11811.03).
Proof.
  destruct (@init_returns rounding (w, h) dpm b rounding_keeps_resolution_positive)
    as [d E].
  exists d. split; [exact E |].
  apply init_resolution in E. destruct E as (Hr & Hru & Hpu).
  assert (Hv : dsb_value (resolution d) = Q2Qc 300).
  { rewrite Hr. apply Qc_decide_eq. vm_compute. reflexivity. }
  split; [exact Hpu |]. split; [exact Hru |].
  split; [exact Hv |].
  unfold get_dots_per_meter. rewrite Hru, Hv.
  rewrite (getitem_resolution_u dpi : getitem resolution_u "dpi" = _).
  cbn [mbind res_bind mret res_ret]. f_equal.
  apply Qc_decide_eq. vm_compute. reflexivity.
Qed.

(** ** dialogs.py: the buttons of a dialog *)

Lemma QButtons_lookup (ok cancel : Z) (k : string) :
  getitem (GenericDialog.QButtons ok cancel) k
  = if decide (k = "ok"%string) then Ok ok
    else if decide (k = "cancel"%string) then Ok cancel
    else Raise KeyError.
Proof.
  unfold getitem, GenericDialog.QButtons.
  destruct (decide (k = "ok"%string)) as [-> | Hok].
  - now rewrite lookup_insert_eq.
  - rewrite lookup_insert_ne by congruence.
    destruct (decide (k = "cancel"%string)) as [-> | Hc].
    + now rewrite lookup_insert_eq.
    + rewrite lookup_insert_ne by congruence. now rewrite lookup_empty.
Qed.

Ltac same_bits :=
  f_equal; apply Z.bits_inj'; intros ? _; rewrite ?Z.lor_spec, ?Z.bits_0;
  repeat match goal with
  | |- context [Z.testbit ?x ?i] => destruct (Z.testbit x i)
  end; reflexivity.

Ltac known_buttons :=
  repeat case_decide;
  repeat match goal with
  | H : context [Forall _ (_ :: _)] |- _ => rewrite Forall_cons in H
  | H : context [_ ∈ _ :: _] |- _ => rewrite elem_of_cons in H
  | H : context [_ ∈ []] |- _ => rewrite elem_of_nil in H
  end;
  first [ reflexivity | same_bits | exfalso; naive_solver ].

Lemma Qbtn_loop_flags (ok cancel Qbtn : Z) (buttons : list string) :
  GenericDialog.Qbtn_loop ok cancel Qbtn buttons
  = if decide (Forall (fun k => k ∈ ["ok"; "cancel"]%string) buttons)
    then Ok (Z.lor Qbtn
               (Z.lor (if decide ("ok"%string ∈ buttons) then ok else 0%Z)
                      (if decide ("cancel"%string ∈ buttons) then cancel else 0%Z)))
    else Raise KeyError.
Proof.
  revert Qbtn. induction buttons as [| k ks IH]; intros Qbtn.
  - cbn [GenericDialog.Qbtn_loop]. rewrite decide_True by constructor.
    rewrite !decide_False by (apply not_elem_of_nil). same_bits.
  - cbn [GenericDialog.Qbtn_loop]. rewrite QButtons_lookup.
    destruct (decide (k = "ok"%string)) as [-> | Hok];
      [| destruct (decide (k = "cancel"%string)) as [-> | Hc]];
      cbn [mbind res_bind]; rewrite ?IH; known_buttons.
Qed.

(** X20. The flags of the button box are the bitwise or of the flags of
    the buttons named, whatever their order and however often a name is
    repeated; a name that is neither ["ok"] nor ["cancel"] makes the
    constructor raise [KeyError], wherever it stands in the list. *)
Theorem GenericDialog_init_flags (ok cancel : Z) (buttons : list string) :
  GenericDialog.__init__ ok cancel buttons
  = if decide (Forall (fun k => k ∈ ["ok"; "cancel"]%string) buttons)
    then Ok (Z.lor (if decide ("ok"%string ∈ buttons) then ok else 0%Z)
                   (if decide ("cancel"%string ∈ buttons) then cancel else 0%Z))
    else Raise KeyError.
Proof.
  unfold GenericDialog.__init__. rewrite Qbtn_loop_flags.
  destruct (decide (Forall _ buttons)); [| reflexivity]. now rewrite Z.lor_0_l.
Qed.
